(** * Property evaluation dashboard ([app.py]): a shallow embedding

    The script is a Streamlit page.  Every run reads the widgets, may call
    the Census endpoint, parses the unit mix text into a dict and, when the
    "Evaluate Property" button was pressed, computes four metrics.

    The embedding keeps the script's own shape:
    - Python [str] is [string]; a character is a code point below 256;
    - Python [int] is [Z] (no wrap-around), Python [float] is binary64,
      taken from the Standard Library's [SpecFloat];
    - a [dict] is an association list in insertion order;
    - exceptions and the messages shown on the page are explicit: a
      computation yields the list of events it produced and either a value
      or the exception that left it. *)

From Stdlib Require Import ZArith List String Ascii Bool Lia.
From Stdlib Require Import SpecFloat.
Import ListNotations.

Local Set Warnings "-register-all".
Local Open Scope string_scope.
Local Open Scope Z_scope.

(** ** Python builtins used by the script *)

Module Py.

(** Exceptions.  [RequestException] stands for the class of the
    [requests] library and its subclasses. *)
Inductive request_exn :=
| ConnectionError (detail : string)
| Timeout
| TooManyRedirects
| HTTPError (status : Z)
| JSONDecodeError.

Inductive exn :=
| ValueError
| IndexError
| KeyError
| TypeError
| OverflowError
| ZeroDivisionError
| RequestException (k : request_exn).

(** [isinstance(e, requests.RequestException)] *)
Definition is_RequestException (e : exn) : bool :=
  match e with
  | RequestException _ => true
  | _ => false
  end.

(** [isinstance(e, ValueError)]: the JSON error of [requests] derives
    from [json.JSONDecodeError], a [ValueError]. *)
Definition is_ValueError (e : exn) : bool :=
  match e with
  | ValueError => true
  | RequestException JSONDecodeError => true
  | _ => false
  end.

Inductive result (A : Type) :=
| Return (a : A)
| Raise (e : exn).
Arguments Return {A} a.
Arguments Raise {A} e.

(** *** [str] *)

(** [str.isspace] on one character, for code points below 256. *)
Definition isspace (c : ascii) : bool :=
  let n := Z.of_N (N_of_ascii c) in
  ((9 <=? n) && (n <=? 13)) || ((28 <=? n) && (n <=? 32))
  || (n =? 133) || (n =? 160).

Fixpoint lstrip (s : string) : string :=
  match s with
  | EmptyString => EmptyString
  | String c r => if isspace c then lstrip r else s
  end.

Fixpoint rstrip (s : string) : string :=
  match s with
  | EmptyString => EmptyString
  | String c r =>
      match rstrip r with
      | EmptyString => if isspace c then EmptyString else String c EmptyString
      | r' => String c r'
      end
  end.

(** [s.strip()] *)
Definition strip (s : string) : string := rstrip (lstrip s).

(** [c in s] for a one-character [c] *)
Fixpoint contains (c : ascii) (s : string) : bool :=
  match s with
  | EmptyString => false
  | String a r => Ascii.eqb a c || contains c r
  end.

(** [s.count(c)] for a one-character [c] *)
Fixpoint count (c : ascii) (s : string) : nat :=
  match s with
  | EmptyString => O
  | String a r => if Ascii.eqb a c then S (count c r) else count c r
  end.

(** [s.split(sep)] for a one-character [sep]: never empty. *)
Fixpoint split (sep : ascii) (s : string) : list string :=
  match s with
  | EmptyString => [EmptyString]
  | String c r =>
      if Ascii.eqb c sep then EmptyString :: split sep r
      else match split sep r with
           | h :: t => String c h :: t
           | [] => [String c EmptyString]
           end
  end.

(** *** [int(s)] in base 10

    An optional sign, then decimal digits; one underscore may stand
    between two digits.  Surrounding white space is ignored.  The
    interpreter's limit on the number of digits is configurable and is
    taken as switched off. *)
Definition digit (c : ascii) : option Z :=
  let n := Z.of_N (N_of_ascii c) in
  if (48 <=? n) && (n <=? 57) then Some (n - 48) else None.

Fixpoint int_digits (s : string) (acc : Z) (after_digit : bool) : option Z :=
  match s with
  | EmptyString => if after_digit then Some acc else None
  | String c r =>
      if Ascii.eqb c "_" then
        if after_digit then int_digits r acc false else None
      else
        match digit c with
        | Some d => int_digits r (10 * acc + d) true
        | None => None
        end
  end.

Definition int_literal (s : string) : option Z :=
  match s with
  | String "+" r => int_digits r 0 false
  | String "-" r => option_map Z.opp (int_digits r 0 false)
  | _ => int_digits s 0 false
  end.

Definition int (s : string) : result Z :=
  match int_literal (strip s) with
  | Some n => Return n
  | None => Raise ValueError
  end.

(** *** [float]: IEEE 754 binary64 *)

Definition float := spec_float.
Definition prec : Z := 53.
Definition emax : Z := 1024.

Definition is_inf (x : float) : bool :=
  match x with
  | S754_infinity _ => true
  | _ => false
  end.

(** An integer as an unrounded significand with exponent 0. *)
Definition int_as_float (n : Z) : float :=
  match n with
  | Z0 => S754_zero false
  | Zpos p => S754_finite false p 0
  | Zneg p => S754_finite true p 0
  end.

(** [float(n)]: correctly rounded, [OverflowError] past the range. *)
Definition float_of_int (n : Z) : result float :=
  let x := binary_normalize prec emax n 0 false in
  if is_inf x then Raise OverflowError else Return x.

(** [a / b] on two [int]s: the correctly rounded quotient. *)
Definition int_truediv (a b : Z) : result float :=
  if b =? 0 then Raise ZeroDivisionError
  else
    let q := SFdiv prec emax (int_as_float a) (int_as_float b) in
    if is_inf q then Raise OverflowError else Return q.

(** [x * n] with [x] a [float] and [n] an [int]: [n] is converted first;
    the product itself never raises. *)
Definition float_mul_int (x : float) (n : Z) : result float :=
  match float_of_int n with
  | Return y => Return (SFmul prec emax x y)
  | Raise e => Raise e
  end.

(** Truth value of an [int] *)
Definition truthy (n : Z) : bool := negb (n =? 0).

(** *** Values decoded from JSON, and what the page can display *)

Inductive value :=
| VNone
| VBool (b : bool)
| VInt (n : Z)
| VFloat (x : float)
| VStr (s : string)
| VList (l : list value)
| VDict (d : list (string * value)).

(** Python index normalisation: a negative index counts from the end. *)
Definition norm_index (len i : Z) : option nat :=
  let j := if i <? 0 then i + len else i in
  if (0 <=? j) && (j <? len) then Some (Z.to_nat j) else None.

(** [v[i]] for an [int] index.  The keys of a decoded JSON object are
    strings, so an [int] key is never found. *)
Definition getitem (v : value) (i : Z) : result value :=
  match v with
  | VList l =>
      match norm_index (Z.of_nat (List.length l)) i with
      | Some k =>
          match nth_error l k with
          | Some x => Return x
          | None => Raise IndexError
          end
      | None => Raise IndexError
      end
  | VStr s =>
      match norm_index (Z.of_nat (String.length s)) i with
      | Some k =>
          match String.get k s with
          | Some c => Return (VStr (String c EmptyString))
          | None => Raise IndexError
          end
      | None => Raise IndexError
      end
  | VDict _ => Raise KeyError
  | VNone | VBool _ | VInt _ | VFloat _ => Raise TypeError
  end.

(** *** [dict] with [str] keys, in insertion order *)

Definition dict (V : Type) := list (string * V).

Fixpoint dict_get {V} (k : string) (d : dict V) : option V :=
  match d with
  | [] => None
  | (k', v) :: r => if String.eqb k' k then Some v else dict_get k r
  end.

(** [d[k] = v]: an existing key keeps its place. *)
Fixpoint dict_set {V} (k : string) (v : V) (d : dict V) : dict V :=
  match d with
  | [] => [(k, v)]
  | (k', v') :: r =>
      if String.eqb k' k then (k', v) :: r else (k', v') :: dict_set k v r
  end.

End Py.

(** ** The [requests] library, as far as the script uses it *)

Module Requests.

Record request := Request {
  url : string;
  params : list (string * string);
  timeout : Z
}.

(** A response: its status and its body decoded as JSON, [None] when the
    text is not JSON.  A text on which the decoder gives up for a reason
    of its own (nesting past the interpreter's recursion limit, an integer
    past its digit limit) is not represented: what is said of a body is
    said of a body the decoder went through. *)
Record response := Response {
  status_code : Z;
  body : option Py.value
}.

(** What a GET comes back with: the library raises one of its own
    exceptions (no connection, time-out, ...) or hands over a response. *)
Inductive reply :=
| Failed (k : Py.request_exn)
| Replied (r : response).

(** The outside world, as seen through [requests.get]. *)
Definition transport := request -> reply.

(** A machine with no network. *)
Definition offline : transport :=
  fun _ => Failed (Py.ConnectionError "Network is unreachable").

(** A reply with status 200 and a table of two rows. *)
Definition two_rows : transport :=
  fun _ => Replied (Response 200 (Some (Py.VList
    [Py.VList [Py.VStr "NAME"; Py.VStr "B19013_001E"; Py.VStr "state";
               Py.VStr "county"];
     Py.VList [Py.VStr "Los Angeles County, California"; Py.VStr "76367";
               Py.VStr "06"; Py.VStr "037"]]))).

(** A reply with status 200 whose table has its header row only. *)
Definition header_only : transport :=
  fun _ => Replied (Response 200 (Some (Py.VList
    [Py.VList [Py.VStr "NAME"; Py.VStr "B19013_001E"; Py.VStr "state";
               Py.VStr "county"]]))).

End Requests.

(** ** What a run leaves behind: page messages and outbound calls *)

Module St.

(** An f-string is kept in parts; text and interpolated [str] values
    render to text, other values are kept as they are. *)
Inductive part :=
| Lit (s : string)
| Interp (v : Py.value)
| InterpExn (e : Py.exn)
| InterpFixed2 (x : Py.float) (grouping : bool).

Definition fstring := list part.

Fixpoint render (f : fstring) : option string :=
  match f with
  | [] => Some EmptyString
  | Lit s :: r => option_map (String.append s) (render r)
  | Interp (Py.VStr s) :: r => option_map (String.append s) (render r)
  | _ => None
  end.

(** Calls that only lay out fixed captions (title, header, columns,
    sub-header, rule, caption) leave no event. *)
Inductive event :=
| Http_get (req : Requests.request)
| St_error (msg : fstring)
| St_warning (msg : fstring)
| St_success (msg : fstring)
| St_metric (label : string) (value : fstring)
| St_write (msg : fstring).

Definition is_http (e : event) : bool :=
  match e with
  | Http_get _ => true
  | _ => false
  end.

Definition is_metric (e : event) : bool :=
  match e with
  | St_metric _ _ => true
  | _ => false
  end.

Definition not_metric (e : event) : Prop := is_metric e = false.

Definition is_error (e : event) : bool :=
  match e with
  | St_error _ => true
  | _ => false
  end.

Definition is_warning (e : event) : bool :=
  match e with
  | St_warning _ => true
  | _ => false
  end.

Definition is_success (e : event) : bool :=
  match e with
  | St_success _ => true
  | _ => false
  end.

Definition is_write (e : event) : bool :=
  match e with
  | St_write _ => true
  | _ => false
  end.

End St.

(** ** Computations: events, then a value or an exception *)

Module Eff.
Import Py.

Definition M (A : Type) : Type :=
  Requests.transport -> list St.event * result A.

Definition ret {A} (a : A) : M A := fun _ => ([], Return a).

Definition raise {A} (e : exn) : M A := fun _ => ([], Raise e).

Definition bind {A B} (m : M A) (f : A -> M B) : M B :=
  fun net =>
    match m net with
    | (tr, Return a) => let (tr', r) := f a net in ((tr ++ tr')%list, r)
    | (tr, Raise e) => (tr, Raise e)
    end.

Definition emit (ev : St.event) : M unit := fun _ => ([ev], Return tt).

Definition lift {A} (r : result A) : M A := fun _ => ([], r).

(** [try: body  except C as e: handler e], with [catches] deciding
    membership in [C]. *)
Definition try_except {A} (body : M A) (catches : exn -> bool)
    (handler : exn -> M A) : M A :=
  fun net =>
    match body net with
    | (tr, Raise e) =>
        if catches e then let (tr', r) := handler e net in ((tr ++ tr')%list, r)
        else (tr, Raise e)
    | done => done
    end.

(** [for x in l: s = body x s] *)
Fixpoint for_each {A S} (body : A -> S -> M S) (l : list A) (s : S) : M S :=
  match l with
  | [] => ret s
  | x :: r => bind (body x s) (for_each body r)
  end.

(** Every event of [m], whatever the outside world, satisfies [P]. *)
Definition emits {A} (P : St.event -> Prop) (m : M A) : Prop :=
  forall net, Forall P (fst (m net)).

Declare Scope eff_scope.
Delimit Scope eff_scope with eff.
Notation "x <- c ;; k" := (bind c (fun x => k))
  (at level 61, c at next level, right associativity) : eff_scope.
Notation "' pat <- c ;; k" := (bind c (fun pat => k))
  (at level 61, pat pattern, c at next level, right associativity) : eff_scope.
Notation "c ;; k" := (bind c (fun _ => k))
  (at level 61, right associativity) : eff_scope.

End Eff.

(** The three calls made on [requests]. *)

Module Http.
Import Py Requests Eff.

(** [requests.get(url, params=params, timeout=timeout)] *)
Definition get (url : string) (params : list (string * string))
    (timeout : Z) : M response :=
  fun net =>
    let req := Request url params timeout in
    ([St.Http_get req],
     match net req with
     | Failed k => Raise (RequestException k)
     | Replied r => Return r
     end).

(** [response.raise_for_status()]: client and server errors raise. *)
Definition raise_for_status (r : response) : M unit :=
  if (400 <=? status_code r) && (status_code r <? 600)
  then raise (RequestException (HTTPError (status_code r)))
  else ret tt.

(** [response.json()]: the library's own JSON error on a body that is
    not JSON (requests 2.27 and later).  The decoder's [RecursionError]
    and the [ValueError] of the digit limit, which the library lets
    through as they are, lie outside [body]. *)
Definition json (r : response) : M value :=
  match body r with
  | Some v => ret v
  | None => raise (RequestException JSONDecodeError)
  end.

End Http.

(** ** The script *)

Module App.
Import Py Requests St Eff.
Local Open Scope eff_scope.

(** *** External data functions *)

Definition get_census_data (state_fips county_fips api_key : string)
    : M value :=
  let base_url := "https://api.census.gov/data/2021/acs/acs5" in
  let params :=
    [ ("get", "NAME,B19013_001E");
      ("for", "county:" ++ county_fips);
      ("in", "state:" ++ state_fips);
      ("key", api_key) ] in
  try_except
    (response <- Http.get base_url params 10 ;;
     Http.raise_for_status response ;;
     data <- Http.json response ;;
     row <- lift (getitem data 1) ;;
     lift (getitem row 1))
    is_RequestException
    (fun e =>
       emit (St_error [Lit "Error fetching Census data: "; InterpExn e]) ;;
       ret (VStr "N/A")).

(** The request [get_census_data] sends. *)
Definition census_request (state_fips county_fips api_key : string)
    : request :=
  Request "https://api.census.gov/data/2021/acs/acs5"
    [ ("get", "NAME,B19013_001E");
      ("for", "county:" ++ county_fips);
      ("in", "state:" ++ state_fips);
      ("key", api_key) ]
    10.

Definition zillow_notice : string :=
  "Zillow API integration requires approval and setup. Returning sample value.".

Definition get_zillow_rent_zestimate
    (property_address zillow_api_key : string) : M Z :=
  emit (St_warning [Lit zillow_notice]) ;;
  ret 2500.

(** *** Widgets: what one run reads from the page

    A button is [true] in the run its click started.  Number inputs are
    [int]s, declared with [min_value=0]; the slider runs from 0 to 100. *)
Record widgets := Widgets {
  census_api_key : string;
  zillow_api_key : string;
  discovery : string;
  validation : string;
  creation : string;
  relationship : string;
  zoning : string;
  permitting : string;
  gov_programs_text : string;
  improvement_districts_text : string;
  cost_per_sqft : Z;
  demographics : string;
  state_fips : string;
  county_fips : string;
  census_button : bool;
  property_address : string;
  zillow_button : bool;
  avg_dwelling_price_own : Z;
  occupancy_rates : Z;
  net_migration : string;
  bldg_sqft : Z;
  units_by_type_text : string;
  commercial_units : Z;
  conversion_costs : Z;
  rental_income : Z;
  operating_expenses : Z;
  condo_sellout : Z;
  evaluate_button : bool
}.

Definition in_range (w : widgets) : Prop :=
  0 <= cost_per_sqft w /\ 0 <= avg_dwelling_price_own w /\
  0 <= occupancy_rates w <= 100 /\ 0 <= bldg_sqft w /\
  0 <= commercial_units w /\ 0 <= conversion_costs w /\
  0 <= rental_income w /\ 0 <= operating_expenses w /\
  0 <= condo_sellout w.

(** *** Units by type *)

(** [key, val = parts] *)
Definition unpack2 (parts : list string) : M (string * string) :=
  match parts with
  | [a; b] => ret (a, b)
  | _ => raise ValueError
  end.

Definition invalid_value (key val : string) : fstring :=
  [Lit "Invalid value for "; Interp (VStr (strip key)); Lit ": ";
   Interp (VStr (strip val))].

(** The body of the loop over [units_by_type_input]. *)
Definition units_by_type_item (item : string) (d : dict Z) : M (dict Z) :=
  if contains ":" item then
    ' (key, val) <- unpack2 (split ":" item) ;;
    try_except
      (n <- lift (int (strip val)) ;;
       ret (dict_set (strip key) n d))
      is_ValueError
      (fun _ => emit (St_warning (invalid_value key val)) ;; ret d)
  else ret d.

Definition units_by_type_dict (units_by_type_input : list string)
    : M (dict Z) :=
  for_each units_by_type_item units_by_type_input [].

(** What one token shows when the loop passes it: the warning of the
    [except] branch, for a token in two parts whose count is no integer. *)
Definition token_warnings (item : string) : list event :=
  match split ":" item with
  | [key; val] =>
      match int (strip val) with
      | Raise _ => [St_warning (invalid_value key val)]
      | Return _ => []
      end
  | _ => []
  end.

(** The text area split on commas, then the loop. *)
Definition parse_unit_mix (text : string) : M (dict Z) :=
  units_by_type_dict (split "," text).

(** *** Evaluation *)

Definition total_cost (bldg_sqft cost_per_sqft conversion_costs : Z) : Z :=
  (bldg_sqft * cost_per_sqft) + conversion_costs.

Definition noi (rental_income operating_expenses : Z) : Z :=
  rental_income - operating_expenses.

Definition profit (condo_sellout total_cost : Z) : Z :=
  condo_sellout - total_cost.

Definition result_bind {A B} (r : result A) (f : A -> result B) : result B :=
  match r with
  | Return a => f a
  | Raise e => Raise e
  end.

(** [(profit / total_cost) * 100 if total_cost else 0] *)
Definition roi (profit total_cost : Z) : result value :=
  if truthy total_cost then
    result_bind (int_truediv profit total_cost) (fun q =>
    result_bind (float_mul_int q 100) (fun x =>
    Return (VFloat x)))
  else Return (VInt 0).

(** [{v:.2f}] and [{v:,.2f}]: an [int] is converted to [float] first. *)
Definition fixed2 (v : value) (grouping : bool) : result part :=
  match v with
  | VInt n =>
      result_bind (float_of_int n) (fun x => Return (InterpFixed2 x grouping))
  | VBool b =>
      result_bind (float_of_int (if b then 1 else 0))
        (fun x => Return (InterpFixed2 x grouping))
  | VFloat x => Return (InterpFixed2 x grouping)
  | VStr _ => Raise ValueError
  | VNone | VList _ | VDict _ => Raise TypeError
  end.

Record evaluation := Evaluation {
  ev_total_cost : Z;
  ev_noi : Z;
  ev_profit : Z;
  ev_roi : value
}.

(** The block under the "Evaluate Property" button.  The pictographs in
    front of its captions lie outside the code points modelled and are
    left out of the text. *)
Definition evaluate_property (w : widgets) (units : dict Z) : M evaluation :=
  let total_cost :=
    total_cost (bldg_sqft w) (cost_per_sqft w) (conversion_costs w) in
  let noi := noi (rental_income w) (operating_expenses w) in
  let profit := profit (condo_sellout w) total_cost in
  roi <- lift (roi profit total_cost) ;;
  emit (St_success [Lit "Evaluation Complete"]) ;;
  shown <- lift (fixed2 (VInt total_cost) true) ;;
  emit (St_metric "Total Development Cost" [Lit "$"; shown]) ;;
  shown <- lift (fixed2 (VInt noi) true) ;;
  emit (St_metric "Net Operating Income (NOI)" [Lit "$"; shown]) ;;
  shown <- lift (fixed2 roi false) ;;
  emit (St_metric "For-Sale ROI" [shown; Lit "%"]) ;;
  for_each
    (fun (entry : string * Z) (_ : unit) =>
       let (unit, count) := entry in
       emit (St_write [Interp (VStr unit); Lit ": "; Interp (VInt count);
                       Lit " units"]))
    units tt ;;
  ret (Evaluation total_cost noi profit roi).

(** One run of the page, top to bottom. *)
Definition app (w : widgets) : M (option evaluation) :=
  let gov_programs := split "," (gov_programs_text w) in
  let improvement_districts := split "," (improvement_districts_text w) in
  avg_income <-
    (if census_button w then
       avg_income <- get_census_data (state_fips w) (county_fips w)
                       (census_api_key w) ;;
       emit (St_success [Lit "Median Household Income: $";
                         Interp avg_income]) ;;
       ret avg_income
     else ret (VInt 85000)) ;;
  avg_dwelling_price_rent <-
    (if zillow_button w then
       rent <- get_zillow_rent_zestimate (property_address w)
                 (zillow_api_key w) ;;
       emit (St_success [Lit "Zillow Rent Zestimate: $";
                         Interp (VInt rent)]) ;;
       ret rent
     else ret 2500) ;;
  units_by_type_dict <- parse_unit_mix (units_by_type_text w) ;;
  if evaluate_button w then
    ev <- evaluate_property w units_by_type_dict ;;
    ret (Some ev)
  else ret None.

(** The page as it comes up: every widget at the default the script gives
    it, text fields empty, no button pressed. *)
Definition defaults : widgets :=
  Widgets "" "" "" "" "" "" "" "" "" "" 200 "" "" "" false "" false
    350000 92 "" 50000 "" 3 3000000 1200000 400000 20000000 false.

(** The defaults with a unit mix typed in and "Evaluate Property" pressed. *)
Definition evaluated : widgets :=
  Widgets "" "" "" "" "" "" "" "" "" "" 200 "" "" "" false "" false
    350000 92 "" 50000 "1BR:20,2BR:15" 3 3000000 1200000 400000 20000000 true.

(** The same six number inputs; every other widget changed, and the
    income fetched. *)
Definition evaluated_otherwise : widgets :=
  Widgets "key" "" "broker" "survey" "2019" "owner" "C-2" "by right"
    "LIHTC,Opportunity Zone" "Downtown BID" 200 "young renters" "06" "037"
    true "1 Main St" true 410000 85 "inbound" 50000
    "Studio:40, 1BR:x" 0 3000000 1200000 400000 20000000 true.

(** [evaluated], with a second colon in the first token of the unit mix. *)
Definition evaluated_second_colon : widgets :=
  Widgets "" "" "" "" "" "" "" "" "" "" 200 "" "" "" false "" false
    350000 92 "" 50000 "1BR:20:5,2BR:15" 3 3000000 1200000 400000 20000000
    true.

(** The defaults with income and expenses exchanged, evaluated. *)
Definition loss_making : widgets :=
  Widgets "" "" "" "" "" "" "" "" "" "" 200 "" "" "" false "" false
    350000 92 "" 50000 "" 3 3000000 400000 1200000 20000000 true.

(** The inputs the evaluation block reads, and the metrics a run shows. *)
Definition numeric_inputs (w : widgets) : Z * Z * Z * Z * Z * Z :=
  (bldg_sqft w, cost_per_sqft w, conversion_costs w,
   rental_income w, operating_expenses w, condo_sellout w).

Definition shown_metrics (tr : list event) : list event :=
  filter is_metric tr.

(** One line of the unit mix summary: [st.write(f"{unit}: {count} units")]. *)
Definition unit_mix_line (entry : string * Z) : event :=
  let (unit, count) := entry in
  St_write [Interp (VStr unit); Lit ": "; Interp (VInt count); Lit " units"].

(** The message under the income button: [f"Median Household Income:
    ${avg_income}"]. *)
Definition income_line (avg_income : value) : event :=
  St_success [Lit "Median Household Income: $"; Interp avg_income].

(** The message under the rent button. *)
Definition rent_line (avg_dwelling_price_rent : Z) : event :=
  St_success [Lit "Zillow Rent Zestimate: $";
              Interp (VInt avg_dwelling_price_rent)].

(** The requests among the events of a run. *)
Definition requests_sent (tr : list event) : list event :=
  filter is_http tr.

End App.

(** ** Facts on computations *)

Module EffFacts.
Import Py St Eff.
Local Open Scope eff_scope.

Section Bind.
Context {A B : Type}.
Variable net : Requests.transport.

Lemma bind_Return (m : M A) (f : A -> M B) tr a :
  m net = (tr, Return a) ->
  bind m f net = ((tr ++ fst (f a net))%list, snd (f a net)).
Proof.
  intros Hm. unfold bind. rewrite Hm. destruct (f a net); reflexivity.
Qed.

Lemma bind_Return_inv (m : M A) (f : A -> M B) tr b :
  bind m f net = (tr, Return b) ->
  exists tr1 a tr2,
    m net = (tr1, Return a) /\ f a net = (tr2, Return b) /\
    tr = (tr1 ++ tr2)%list.
Proof.
  unfold bind. destruct (m net) as [tr1 [a | e]]; [| discriminate].
  destruct (f a net) as [tr2 r] eqn:Hf. intros H. inversion H; subst.
  exists tr1, a, tr2. auto.
Qed.
End Bind.

Lemma bind_ret_l {A B} (a : A) (f : A -> M B) net :
  bind (ret a) f net = f a net.
Proof. unfold bind, ret. destruct (f a net). reflexivity. Qed.

Lemma bind_ext {A B} (m : M A) (f g : A -> M B) net :
  (forall a, f a net = g a net) -> bind m f net = bind m g net.
Proof.
  intros H. unfold bind. destruct (m net) as [tr [a | e]]; [| reflexivity].
  rewrite H. reflexivity.
Qed.

Lemma bind_assoc {A B C} (m : M A) (f : A -> M B) (g : B -> M C) net :
  bind (bind m f) g net = bind m (fun a => bind (f a) g) net.
Proof.
  unfold bind. destruct (m net) as [tr [a | e]]; [| reflexivity].
  destruct (f a net) as [tr1 [b | e1]]; [| reflexivity].
  destruct (g b net) as [tr2 r]. rewrite app_assoc. reflexivity.
Qed.

Section ForEach.
Context {A S : Type}.
Variable body : A -> S -> M S.
Variable net : Requests.transport.

Lemma for_each_app l1 l2 s :
  for_each body (l1 ++ l2) s net =
  bind (for_each body l1 s) (for_each body l2) net.
Proof.
  revert s. induction l1 as [| x l1 IH]; intros s; simpl.
  - rewrite bind_ret_l. reflexivity.
  - rewrite bind_assoc. apply bind_ext. intros s'. apply IH.
Qed.

(** A step that returns its state untouched and says nothing can be
    left out of the list. *)
Lemma for_each_skip l1 x l2 s :
  (forall s', body x s' net = ([], Return s')) ->
  for_each body (l1 ++ x :: l2) s net = for_each body (l1 ++ l2) s net.
Proof.
  intros Hx. rewrite !for_each_app. unfold bind.
  destruct (for_each body l1 s net) as [tr [s1 | e]]; [| reflexivity].
  simpl. unfold bind at 1. rewrite Hx.
  destruct (for_each body l2 s1 net). reflexivity.
Qed.

(** An invariant of the state along a loop. *)
Lemma for_each_invariant (I : S -> Prop) l :
  (forall x s tr s', In x l -> I s -> body x s net = (tr, Return s') ->
                     I s') ->
  forall s tr s', I s -> for_each body l s net = (tr, Return s') -> I s'.
Proof.
  induction l as [| x l IH]; intros Hstep s tr s' Hs Hrun; simpl in Hrun.
  - inversion Hrun; subst. assumption.
  - apply bind_Return_inv in Hrun.
    destruct Hrun as (tr1 & s1 & tr2 & H1 & H2 & _).
    apply (IH (fun y t u v Hin => Hstep y t u v (or_intror Hin)) s1 tr2 s').
    + apply (Hstep x s tr1 s1); simpl; auto.
    + assumption.
Qed.

End ForEach.
End EffFacts.

(** ** Which events a computation can produce *)

Module EmitFacts.
Import Py St Eff EffFacts.

Section Emits.
Variable P : event -> Prop.

Lemma emits_ret {A} (a : A) : emits P (ret a).
Proof. intros net. constructor. Qed.

Lemma emits_raise {A} e : emits P (@raise A e).
Proof. intros net. constructor. Qed.

Lemma emits_lift {A} (r : result A) : emits P (lift r).
Proof. intros net. constructor. Qed.

Lemma emits_emit ev : P ev -> emits P (emit ev).
Proof. intros H net. repeat constructor. exact H. Qed.

Lemma emits_bind {A B} (m : M A) (f : A -> M B) :
  emits P m -> (forall a, emits P (f a)) -> emits P (bind m f).
Proof.
  intros Hm Hf net. unfold bind. specialize (Hm net).
  destruct (m net) as [tr [a | e]]; simpl in *; [| exact Hm].
  specialize (Hf a net). destruct (f a net) as [tr' r]; simpl in *.
  apply Forall_app. split; assumption.
Qed.

Lemma emits_try_except {A} (body : M A) catches handler :
  emits P body -> (forall e, emits P (handler e)) ->
  emits P (try_except body catches handler).
Proof.
  intros Hb Hh net. unfold try_except. specialize (Hb net).
  destruct (body net) as [tr [a | e]]; simpl in *; [exact Hb |].
  destruct (catches e); simpl; [| exact Hb].
  specialize (Hh e net). destruct (handler e net) as [tr' r]; simpl in *.
  apply Forall_app. split; assumption.
Qed.

Lemma emits_for_each {A S} (body : A -> S -> M S) l :
  (forall x s, emits P (body x s)) -> forall s, emits P (for_each body l s).
Proof.
  intros Hb. induction l as [| x l IH]; intros s; simpl.
  - apply emits_ret.
  - apply emits_bind; [apply Hb | exact IH].
Qed.

Lemma emits_if {A} (b : bool) (m1 m2 : M A) :
  emits P m1 -> emits P m2 -> emits P (if b then m1 else m2).
Proof. destruct b; auto. Qed.

Lemma emits_http_get url params timeout :
  (forall req, P (Http_get req)) -> emits P (Http.get url params timeout).
Proof. intros H net. unfold Http.get. simpl. repeat constructor. apply H. Qed.

Lemma emits_raise_for_status r : emits P (Http.raise_for_status r).
Proof.
  unfold Http.raise_for_status.
  apply emits_if; [apply emits_raise | apply emits_ret].
Qed.

Lemma emits_json r : emits P (Http.json r).
Proof.
  unfold Http.json. destruct (Requests.body r); [apply emits_ret | apply emits_raise].
Qed.
End Emits.

End EmitFacts.

(** ** Facts on the builtins *)

Module PyFacts.
Import Py.

Lemma split_length c s : List.length (split c s) = S (count c s).
Proof.
  induction s as [| a r IH]; simpl; [reflexivity |].
  destruct (Ascii.eqb a c); simpl; [now rewrite IH |].
  destruct (split c r) as [| h t]; simpl in *; [discriminate | assumption].
Qed.

Lemma contains_count c s : contains c s = negb (Nat.eqb (count c s) 0).
Proof.
  induction s as [| a r IH]; simpl; [reflexivity |].
  destruct (Ascii.eqb a c); simpl; [reflexivity | assumption].
Qed.

Lemma split_pair_count c s a b : split c s = [a; b] -> count c s = 1%nat.
Proof.
  intros H. pose proof (split_length c s) as L. rewrite H in L.
  simpl in L. lia.
Qed.

Lemma split_pair_contains c s a b : split c s = [a; b] -> contains c s = true.
Proof.
  intros H. rewrite contains_count, (split_pair_count c s a b H). reflexivity.
Qed.

Lemma count_one_split c s :
  count c s = 1%nat -> exists a b, split c s = [a; b].
Proof.
  intros H. pose proof (split_length c s) as L. rewrite H in L.
  destruct (split c s) as [| a [| b [| x t]]]; simpl in L; try discriminate.
  exists a, b. reflexivity.
Qed.

Lemma int_cases s : (exists n, int s = Return n) \/ int s = Raise ValueError.
Proof.
  unfold int. destruct (int_literal (strip s)); [left; eauto | right; reflexivity].
Qed.

Section Dict.
Context {V : Type}.

Lemma dict_get_set_same k (v : V) d : dict_get k (dict_set k v d) = Some v.
Proof.
  induction d as [| [k' v'] r IH]; simpl.
  - rewrite String.eqb_refl. reflexivity.
  - destruct (String.eqb k' k) eqn:E; simpl; rewrite E; [reflexivity | exact IH].
Qed.

Lemma dict_get_set_other k k' (v : V) d :
  k' <> k -> dict_get k' (dict_set k v d) = dict_get k' d.
Proof.
  intros Hne. induction d as [| [k0 v0] r IH]; simpl.
  - destruct (String.eqb_spec k k'); [congruence | reflexivity].
  - destruct (String.eqb_spec k0 k) as [-> | Hk]; simpl.
    + destruct (String.eqb_spec k k'); [congruence | reflexivity].
    + destruct (String.eqb k0 k'); [reflexivity | exact IH].
Qed.
End Dict.
End PyFacts.

(** ** Facts on the unit mix loop *)

Module UnitsFacts.
Import Py St Eff App EffFacts PyFacts.
Local Open Scope eff_scope.

Section Item.
Variable net : Requests.transport.
Variable d : dict Z.

Lemma item_no_colon item :
  contains ":" item = false -> units_by_type_item item d net = ([], Return d).
Proof. intros H. unfold units_by_type_item. rewrite H. reflexivity. Qed.

Lemma item_valid item key val n :
  split ":" item = [key; val] -> int (strip val) = Return n ->
  units_by_type_item item d net = ([], Return (dict_set (strip key) n d)).
Proof.
  intros Hs Hi. unfold units_by_type_item.
  rewrite (split_pair_contains _ _ _ _ Hs), Hs. simpl.
  unfold bind, try_except, lift, ret; simpl. rewrite Hi. reflexivity.
Qed.

Lemma item_invalid item key val :
  split ":" item = [key; val] -> int (strip val) = Raise ValueError ->
  units_by_type_item item d net =
  ([St_warning (invalid_value key val)], Return d).
Proof.
  intros Hs Hi. unfold units_by_type_item.
  rewrite (split_pair_contains _ _ _ _ Hs), Hs. simpl.
  unfold bind, try_except, lift, ret; simpl. rewrite Hi. reflexivity.
Qed.

Lemma item_many_colons item :
  (2 <= count ":" item)%nat ->
  units_by_type_item item d net = ([], Raise ValueError).
Proof.
  intros H. unfold units_by_type_item.
  rewrite contains_count.
  destruct (Nat.eqb_spec (count ":" item) 0) as [E | _]; [lia |]. simpl.
  pose proof (split_length ":" item) as L.
  destruct (split ":" item) as [| a [| b [| x t]]]; simpl in L;
    try reflexivity; lia.
Qed.
End Item.

(** One token, by its number of colons: none, it is passed over; one, a
    count is stored or a warning shown; more, the unpacking raises. *)
Lemma item_cases net d item :
  match count ":" item with
  | O => units_by_type_item item d net = ([], Return d)
  | 1%nat =>
      exists key val, split ":" item = [key; val] /\
        ((exists n, int (strip val) = Return n /\
            units_by_type_item item d net =
            ([], Return (dict_set (strip key) n d))) \/
         (int (strip val) = Raise ValueError /\
            units_by_type_item item d net =
            ([St_warning (invalid_value key val)], Return d)))
  | _ => units_by_type_item item d net = ([], Raise ValueError)
  end.
Proof.
  destruct (count ":" item) as [| [| k]] eqn:E.
  - apply item_no_colon. rewrite contains_count, E. reflexivity.
  - destruct (count_one_split _ _ E) as (key & val & Hs).
    exists key, val. split; [exact Hs |].
    destruct (int_cases (strip val)) as [[n Hn] | Hn].
    + left. exists n. split; [exact Hn | exact (item_valid net d item key val n Hs Hn)].
    + right. split; [exact Hn | exact (item_invalid net d item key val Hs Hn)].
  - apply item_many_colons. lia.
Qed.

(** The loop returns exactly when no token has two colons or more. *)
Lemma for_each_item_returns net items : forall d,
  Forall (fun item => (count ":" item <= 1)%nat) items ->
  exists tr d', for_each units_by_type_item items d net = (tr, Return d').
Proof.
  induction items as [| item items IH]; intros d Hall; simpl.
  - exists [], d. reflexivity.
  - inversion Hall as [| ? ? Hitem Hrest]; subst.
    pose proof (item_cases net d item) as Hc.
    destruct (count ":" item) as [| [| k]]; [| | lia].
    + destruct (IH d Hrest) as (tr & d' & Hrun).
      exists tr, d'. rewrite (bind_Return net _ _ [] d Hc), Hrun. reflexivity.
    + destruct Hc as (key & val & _ & [(n & _ & Hrun1) | (_ & Hrun1)]).
      * destruct (IH (dict_set (strip key) n d) Hrest) as (tr & d' & Hrun).
        exists tr, d'. rewrite (bind_Return net _ _ [] _ Hrun1), Hrun.
        reflexivity.
      * destruct (IH d Hrest) as (tr & d' & Hrun).
        eexists _, d'. rewrite (bind_Return net _ _ _ _ Hrun1), Hrun.
        reflexivity.
Qed.

Lemma for_each_item_returned net items : forall d tr d',
  for_each units_by_type_item items d net = (tr, Return d') ->
  Forall (fun item => (count ":" item <= 1)%nat) items.
Proof.
  induction items as [| item items IH]; intros d tr d' Hrun; simpl in Hrun.
  - constructor.
  - apply bind_Return_inv in Hrun.
    destruct Hrun as (tr1 & d1 & tr2 & H1 & H2 & _).
    constructor; [| exact (IH _ _ _ H2)].
    pose proof (item_cases net d item) as Hc.
    destruct (count ":" item) as [| [| k]]; [lia | lia |].
    rewrite Hc in H1. discriminate.
Qed.
End UnitsFacts.

(** ** The unit mix parser *)

Section UnitMix.
Import Py St Eff App EffFacts PyFacts UnitsFacts.

Lemma append_empty_r s : s ++ "" = s.
Proof. induction s as [| c s IH]; simpl; [| rewrite IH]; reflexivity. Qed.

Lemma render_invalid_value key val :
  render (invalid_value key val) =
  Some ("Invalid value for " ++ strip key ++ ": " ++ strip val).
Proof. unfold invalid_value. simpl. rewrite append_empty_r. reflexivity. Qed.

(** C1: the unpacking [key, val = item.split(":")] stands before the [try],
    so a token with two colons leaves the loop with a [ValueError] and no
    mapping is produced. *)
Theorem units_by_type_dict_raises_on_second_colon :
  forall net, parse_unit_mix "1BR:20:5" net = ([], Raise ValueError).
Proof. intros net. reflexivity. Qed.

(** A token in two parts whose count does not parse as an integer shows
    one warning naming the trimmed label and value, stores nothing and
    keeps the entries gathered so far; the loop goes on with the tokens
    that follow. *)
Lemma invalid_count_warns_and_continues :
  forall net pre item post key val tr d,
    split ":" item = [key; val] ->
    int (strip val) = Raise ValueError ->
    units_by_type_dict pre net = (tr, Return d) ->
    units_by_type_dict (pre ++ item :: post) net =
      ((tr ++ St_warning (invalid_value key val)
           :: fst (for_each units_by_type_item post d net))%list,
       snd (for_each units_by_type_item post d net))
    /\ render (invalid_value key val) =
       Some ("Invalid value for " ++ strip key ++ ": " ++ strip val).
Proof.
  intros net pre item post key val tr d Hs Hi Hpre.
  split; [| apply render_invalid_value].
  unfold units_by_type_dict in *.
  rewrite for_each_app, (bind_Return net _ _ tr d Hpre). simpl.
  rewrite (bind_Return net _ _ _ d (item_invalid net d item key val Hs Hi)).
  reflexivity.
Qed.

Lemma invalid_count_witness :
  parse_unit_mix "1BR:20,Studio:abc,2BR:15" Requests.offline =
  ([St_warning (invalid_value "Studio" "abc")],
   Return [("1BR", 20); ("2BR", 15)]).
Proof.
  exact (proj1 (invalid_count_warns_and_continues Requests.offline
                  ["1BR:20"] "Studio:abc" ["2BR:15"] "Studio" "abc"
                  [] [("1BR", 20)] eq_refl eq_refl eq_refl)).
Defined.

(** C6: a token without a colon is passed over: the run is the run on the
    list without that token, so it adds no entry and no warning.  The text
    "garbage" gives the empty mapping and no event at all. *)
Theorem token_without_colon_is_dropped :
  (forall net pre item post,
      contains ":" item = false ->
      units_by_type_dict (pre ++ item :: post) net =
      units_by_type_dict (pre ++ post) net)
  /\ (forall net, parse_unit_mix "garbage" net = ([], Return [])).
Proof.
  split; [| reflexivity].
  intros net pre item post H. unfold units_by_type_dict.
  apply for_each_skip. intros d. apply item_no_colon. exact H.
Qed.

Lemma token_without_colon_witness :
  parse_unit_mix "1BR:20,garbage,2BR:15" Requests.offline =
  parse_unit_mix "1BR:20,2BR:15" Requests.offline.
Proof.
  exact (proj1 token_without_colon_is_dropped Requests.offline
           ["1BR:20"] "garbage" ["2BR:15"] eq_refl).
Defined.

(** C7: the mapping returned holds, for a label, the count of the last
    token that carries this label (trimmed) with a count that parses. *)
Theorem last_write_wins :
  (forall net pre item post key val n tr d,
      split ":" item = [key; val] ->
      int (strip val) = Return n ->
      (forall item' key' val' n',
          In item' post -> split ":" item' = [key'; val'] ->
          int (strip val') = Return n' -> strip key' <> strip key) ->
      units_by_type_dict (pre ++ item :: post) net = (tr, Return d) ->
      dict_get (strip key) d = Some n)
  /\ (forall net, parse_unit_mix "1BR:20,1BR:5" net =
                  ([], Return [("1BR", 5)])).
Proof.
  split; [| reflexivity].
  intros net pre item post key val n tr d Hs Hi Hlast Hrun.
  unfold units_by_type_dict in Hrun. rewrite for_each_app in Hrun.
  apply bind_Return_inv in Hrun.
  destruct Hrun as (tr1 & d1 & tr2 & _ & Hrest & _). simpl in Hrest.
  apply bind_Return_inv in Hrest.
  destruct Hrest as (tr3 & d2 & tr4 & Hitem & Hpost & _).
  rewrite (item_valid net d1 item key val n Hs Hi) in Hitem.
  inversion Hitem; subst d2 tr3.
  refine (for_each_invariant units_by_type_item net
            (fun d => dict_get (strip key) d = Some n) post _ _ tr4 d _ Hpost).
  - intros x s t s' Hin Hinv Hx.
    pose proof (item_cases net s x) as Hc.
    destruct (count ":" x) as [| [| k]].
    + rewrite Hc in Hx. inversion Hx; subst. exact Hinv.
    + destruct Hc as (key' & val' & Hs' & [(n' & Hn' & Hr) | (_ & Hr)]);
        rewrite Hr in Hx; inversion Hx; subst; [| exact Hinv].
      rewrite dict_get_set_other; [exact Hinv |].
      intros E. exact (Hlast x key' val' n' Hin Hs' Hn' (eq_sym E)).
    + rewrite Hc in Hx. discriminate.
  - apply dict_get_set_same.
Qed.

Lemma last_write_wins_witness :
  dict_get "1BR" [("1BR", 5); ("2BR", 15)] = Some 5.
Proof.
  refine (proj1 last_write_wins Requests.offline
            ["1BR:20"] " 1BR : 5" ["2BR:15"; "1BR:x"] " 1BR " " 5" 5
            [St_warning (invalid_value "1BR" "x")] [("1BR", 5); ("2BR", 15)]
            eq_refl eq_refl _ eq_refl).
  intros item' key' val' n' [<- | [<- | []]] Hs Hn;
    inversion Hs; subst; [discriminate | discriminate].
Defined.
End UnitMix.

(** ** The external data functions *)

Section ExternalData.
Import Py Requests St Eff App EffFacts EmitFacts.
Variables state_fips county_fips api_key : string.
Variable net : transport.

Let req := census_request state_fips county_fips api_key.
Let notice (e : exn) := St_error [Lit "Error fetching Census data: "; InterpExn e].

(** Indexing raises [IndexError], [KeyError] or [TypeError], none of them
    an exception of [requests]. *)
Lemma getitem_not_request v i e :
  getitem v i = Raise e -> is_RequestException e = false.
Proof.
  destruct v as [| b | n | x | s | l | d]; simpl; intros H;
    try (inversion H; reflexivity).
  - destruct (norm_index _ i) as [k |]; [destruct (String.get k s) |];
      inversion H; reflexivity.
  - destruct (norm_index _ i) as [k |]; [destruct (nth_error l k) |];
      inversion H; reflexivity.
Qed.

(** No connection, a time-out, too many redirects: the fallback. *)
Lemma census_transport_failure k :
  net req = Failed k ->
  get_census_data state_fips county_fips api_key net =
  ([Http_get req; notice (RequestException k)], Return (VStr "N/A")).
Proof.
  intros H. unfold get_census_data, try_except, bind, Http.get.
  unfold req, census_request in H. rewrite H. reflexivity.
Qed.

(** A client or server error status: the fallback. *)
Lemma census_error_status r :
  net req = Replied r -> 400 <= status_code r < 600 ->
  get_census_data state_fips county_fips api_key net =
  ([Http_get req; notice (RequestException (HTTPError (status_code r)))],
   Return (VStr "N/A")).
Proof.
  intros H Hs. unfold get_census_data, try_except, bind, Http.get.
  unfold req, census_request in H. rewrite H. unfold Http.raise_for_status.
  replace ((400 <=? status_code r) && (status_code r <? 600)) with true
    by (symmetry; apply andb_true_iff; split; [apply Z.leb_le | apply Z.ltb_lt]; lia).
  reflexivity.
Qed.

(** A body that is not JSON: the fallback. *)
Lemma census_body_not_json r :
  net req = Replied r -> ~ 400 <= status_code r < 600 -> body r = None ->
  get_census_data state_fips county_fips api_key net =
  ([Http_get req; notice (RequestException JSONDecodeError)],
   Return (VStr "N/A")).
Proof.
  intros H Hs Hb. unfold get_census_data, try_except, bind, Http.get.
  unfold req, census_request in H. rewrite H. unfold Http.raise_for_status.
  replace ((400 <=? status_code r) && (status_code r <? 600)) with false
    by (symmetry; apply andb_false_iff;
        destruct (Z.leb_spec 400 (status_code r)); [right; apply Z.ltb_ge; lia | left; reflexivity]).
  unfold Http.json. rewrite Hb. reflexivity.
Qed.

(** A JSON body: the value, or the exception, of [data[1][1]]. *)
Lemma census_json_body r data :
  net req = Replied r -> ~ 400 <= status_code r < 600 -> body r = Some data ->
  get_census_data state_fips county_fips api_key net =
  ([Http_get req],
   match getitem data 1 with
   | Return row => getitem row 1
   | Raise e => Raise e
   end).
Proof.
  intros H Hs Hb. unfold get_census_data, try_except, bind, Http.get.
  unfold req, census_request in H. rewrite H. unfold Http.raise_for_status.
  replace ((400 <=? status_code r) && (status_code r <? 600)) with false
    by (symmetry; apply andb_false_iff;
        destruct (Z.leb_spec 400 (status_code r)); [right; apply Z.ltb_ge; lia | left; reflexivity]).
  unfold Http.json. rewrite Hb. unfold lift, ret. simpl.
  destruct (getitem data 1) as [row | e] eqn:Hrow; simpl.
  - destruct (getitem row 1) as [v | e] eqn:Hv; simpl; [reflexivity |].
    rewrite (getitem_not_request _ _ _ Hv). reflexivity.
  - rewrite (getitem_not_request _ _ _ Hrow). reflexivity.
Qed.
End ExternalData.

Section Census.
Import Py Requests St Eff App.

(** C2: the handler names [requests.RequestException] only, so a body
    that is JSON but has no row 1 leaves the function with [IndexError]
    instead of the fallback. *)
Theorem get_census_data_raises_on_short_table :
  forall state_fips county_fips api_key,
    get_census_data state_fips county_fips api_key header_only =
    ([Http_get (census_request state_fips county_fips api_key)],
     Raise IndexError).
Proof. intros. reflexivity. Qed.

(** C4: whatever the address and the key, the rent estimate is 2500, one
    warning is shown, and no request leaves the machine. *)
Theorem get_zillow_rent_zestimate_is_a_stub :
  forall property_address zillow_api_key net,
    get_zillow_rent_zestimate property_address zillow_api_key net =
      ([St_warning [Lit zillow_notice]], Return 2500)
    /\ existsb is_http
         (fst (get_zillow_rent_zestimate property_address zillow_api_key net))
       = false.
Proof. intros. split; reflexivity. Qed.
End Census.

(** ** What the metrics depend on *)

Section Metrics.
Import Py Requests St Eff App EffFacts EmitFacts.
Local Open Scope eff_scope.

Ltac emits_step :=
  first
    [ apply emits_ret | apply emits_raise | apply emits_lift
    | apply emits_emit; reflexivity
    | apply emits_http_get; intros; reflexivity
    | apply emits_raise_for_status | apply emits_json
    | apply emits_bind; [| intros]
    | apply emits_try_except; [| intros]
    | apply emits_for_each; intros
    | apply emits_if ].

Lemma census_shows_no_metric state_fips county_fips api_key :
  emits not_metric (get_census_data state_fips county_fips api_key).
Proof. unfold get_census_data. repeat emits_step. Qed.

Lemma zillow_shows_no_metric property_address zillow_api_key :
  emits not_metric (get_zillow_rent_zestimate property_address zillow_api_key).
Proof. unfold get_zillow_rent_zestimate. repeat emits_step. Qed.

Lemma unpack2_silent parts : emits not_metric (unpack2 parts).
Proof.
  destruct parts as [| a [| b [| c t]]]; simpl; emits_step.
Qed.

Lemma units_show_no_metric text : emits not_metric (parse_unit_mix text).
Proof.
  unfold parse_unit_mix, units_by_type_dict. apply emits_for_each.
  intros item d. unfold units_by_type_item.
  apply emits_if; [| emits_step].
  apply emits_bind; [apply unpack2_silent |].
  intros [key val]. repeat emits_step.
Qed.

Lemma summary_shows_no_metric (units : dict Z) :
  emits not_metric
    (for_each
       (fun (entry : string * Z) (_ : unit) =>
          let (unit, count) := entry in
          emit (St_write [Interp (VStr unit); Lit ": "; Interp (VInt count);
                          Lit " units"]))
       units tt).
Proof. apply emits_for_each. intros [unit count] []. emits_step. Qed.

Lemma emits_Return {A} P (m : M A) net tr r :
  emits P m -> m net = (tr, r) -> Forall P tr.
Proof. intros H E. specialize (H net). rewrite E in H. exact H. Qed.

Lemma no_metric_filter tr : Forall not_metric tr -> shown_metrics tr = [].
Proof.
  unfold shown_metrics. induction 1 as [| e l He _ IH]; simpl.
  - reflexivity.
  - rewrite He. exact IH.
Qed.

Lemma shown_metrics_app tr1 tr2 :
  shown_metrics (tr1 ++ tr2) = (shown_metrics tr1 ++ shown_metrics tr2)%list.
Proof. apply filter_app. Qed.

Ltac bind_inv H :=
  apply bind_Return_inv in H;
  let tr1 := fresh "tr" in
  let a := fresh "a" in
  let tr2 := fresh "tr" in
  let H1 := fresh "Hfirst" in
  destruct H as (tr1 & a & tr2 & H1 & H & ->).

(** The block under the button: its value and the metrics it shows are
    computed from the six number inputs. *)
Lemma evaluate_property_Return w units net tr ev :
  evaluate_property w units net = (tr, Return ev) ->
  let cost := total_cost (bldg_sqft w) (cost_per_sqft w) (conversion_costs w) in
  let income := noi (rental_income w) (operating_expenses w) in
  let gain := profit (condo_sellout w) cost in
  exists r p1 p2 p3,
    roi gain cost = Return r /\
    fixed2 (VInt cost) true = Return p1 /\
    fixed2 (VInt income) true = Return p2 /\
    fixed2 r false = Return p3 /\
    ev = Evaluation cost income gain r /\
    shown_metrics tr =
      [St_metric "Total Development Cost" [Lit "$"; p1];
       St_metric "Net Operating Income (NOI)" [Lit "$"; p2];
       St_metric "For-Sale ROI" [p3; Lit "%"]].
Proof.
  intros H cost income gain. unfold evaluate_property in H.
  fold cost in H. fold income in H. fold gain in H.
  bind_inv H. bind_inv H. bind_inv H. bind_inv H. bind_inv H. bind_inv H.
  bind_inv H. bind_inv H. bind_inv H.
  unfold lift in *. unfold emit, ret in *.
  repeat match goal with
         | E : (_, _) = (_, _) |- _ => inversion E; clear E; subst
         end.
  match goal with
  | Hs : for_each _ units tt net = (?t, _) |- _ =>
      assert (Hquiet : shown_metrics t = [])
        by exact (no_metric_filter _
                    (emits_Return _ _ _ _ _ (summary_shows_no_metric units) Hs))
  end.
  do 4 eexists. repeat split; try eassumption.
  unfold shown_metrics in *. simpl. rewrite app_nil_r, Hquiet. reflexivity.
Qed.
Ltac quiet :=
  repeat first
    [ apply census_shows_no_metric | apply zillow_shows_no_metric
    | apply units_show_no_metric | emits_step ].

(** A run that evaluates: whatever came before the block showed no
    metric, and the value of the run is the value of the block. *)
Lemma app_Return w net tr ev :
  app w net = (tr, Return (Some ev)) ->
  exists tr0 units tr1,
    evaluate_property w units net = (tr1, Return ev) /\
    tr = (tr0 ++ tr1)%list /\ shown_metrics tr0 = [].
Proof.
  intros H. unfold app in H.
  bind_inv H. bind_inv H. bind_inv H.
  destruct (evaluate_button w); [| discriminate H].
  bind_inv H. unfold ret in H. inversion H; subst.
  repeat match goal with
         | Hs : _ net = (?t, Return _) |- _ =>
             lazymatch type of Hs with
             | evaluate_property _ _ _ = _ => fail
             | _ =>
                 assert (shown_metrics t = [])
                   by (apply no_metric_filter;
                       refine (emits_Return _ _ _ _ _ _ Hs); quiet);
                 clear Hs
             end
         end.
  match goal with
  | He : evaluate_property w ?u net = (?t, Return ev)
    |- exists _ _ _, _ /\ (?x ++ ?y ++ ?z ++ _ ++ [])%list = _ /\ _ =>
      exists (x ++ y ++ z)%list, u, t
  end.
  split; [assumption |]. split.
  - rewrite app_nil_r, <- !app_assoc. reflexivity.
  - rewrite !shown_metrics_app.
    repeat match goal with Hq : shown_metrics _ = [] |- _ => rewrite Hq; clear Hq end.
    reflexivity.
Qed.

Lemma float_of_int_100 :
  float_of_int 100 = Return (S754_finite false 7036874417766400 (-46)).
Proof. reflexivity. Qed.

Lemma float_mul_int_100 q : exists x, float_mul_int q 100 = Return x.
Proof. unfold float_mul_int. rewrite float_of_int_100. eauto. Qed.

(** A run that evaluates ends with the values of the four expressions. *)
Lemma app_evaluation w net tr ev :
  app w net = (tr, Return (Some ev)) ->
  ev_total_cost ev =
    total_cost (bldg_sqft w) (cost_per_sqft w) (conversion_costs w) /\
  ev_noi ev = noi (rental_income w) (operating_expenses w) /\
  ev_profit ev = profit (condo_sellout w) (ev_total_cost ev) /\
  roi (ev_profit ev) (ev_total_cost ev) = Return (ev_roi ev).
Proof.
  intros H. apply app_Return in H. destruct H as (pre & u & blk & E & _ & _).
  apply evaluate_property_Return in E.
  destruct E as (r & _ & _ & _ & R & _ & _ & _ & -> & _).
  simpl. auto.
Qed.

(** C3: with a total cost of 0 the ROI is the integer 0 and nothing is
    divided; otherwise it is the quotient of the profit by the total cost,
    times 100, in the interpreter's arithmetic.  In no case does the
    expression raise [ZeroDivisionError].  The ROI a run ends with is
    the value of this expression. *)
Theorem roi_zero_guard_and_formula :
  (forall condo_sellout cost,
      (cost = 0 -> roi (profit condo_sellout cost) cost = Return (VInt 0))
      /\ (cost <> 0 ->
          roi (profit condo_sellout cost) cost =
          result_bind (int_truediv (condo_sellout - cost) cost) (fun q =>
          result_bind (float_mul_int q 100) (fun x => Return (VFloat x))))
      /\ roi (profit condo_sellout cost) cost <> Raise ZeroDivisionError)
  /\ (forall w net tr ev,
        app w net = (tr, Return (Some ev)) ->
        roi (profit (condo_sellout w) (ev_total_cost ev)) (ev_total_cost ev)
        = Return (ev_roi ev)).
Proof.
  split.
  - intros condo_sellout cost. unfold roi, profit, truthy.
    destruct (Z.eqb_spec cost 0) as [E | E]; cbn [negb].
    + repeat split; [congruence | discriminate].
    + repeat split; [congruence |].
      unfold int_truediv. destruct (Z.eqb_spec cost 0); [congruence |].
      destruct (is_inf _); cbn [result_bind]; [discriminate |].
      destruct (float_mul_int_100 (SFdiv prec emax
                  (int_as_float (condo_sellout - cost)) (int_as_float cost)))
        as [x ->].
      discriminate.
  - intros w net tr ev H. apply app_evaluation in H.
    destruct H as (_ & _ & Hp & Hr). rewrite <- Hp. exact Hr.
Qed.

Lemma roi_witness :
  roi (profit 20000000 0) 0 = Return (VInt 0)
  /\ roi (profit 20000000 13000000) 13000000 =
     Return (VFloat (S754_finite false 7578172449902277 (-47))).
Proof.
  split.
  - exact (proj1 (proj1 roi_zero_guard_and_formula 20000000 0) eq_refl).
  - apply (proj1 (proj2 (proj1 roi_zero_guard_and_formula 20000000 13000000))).
    discriminate.
Defined.

(** C8: the total development cost is the building area times the cost
    per square foot, plus the conversion costs, as integers and so without
    rounding; a run ends with this value. *)
Theorem total_cost_exact :
  (forall bldg_sqft cost_per_sqft conversion_costs,
      0 <= bldg_sqft -> 0 <= cost_per_sqft -> 0 <= conversion_costs ->
      total_cost bldg_sqft cost_per_sqft conversion_costs =
      bldg_sqft * cost_per_sqft + conversion_costs)
  /\ (forall w net tr ev,
        app w net = (tr, Return (Some ev)) ->
        ev_total_cost ev =
        bldg_sqft w * cost_per_sqft w + conversion_costs w).
Proof.
  split; [intros; reflexivity |].
  intros w net tr ev H. apply app_evaluation in H.
  destruct H as (Hc & _). exact Hc.
Qed.

Lemma total_cost_witness :
  total_cost 50000 200 3000000 = 13000000
  /\ forall ev, snd (app evaluated offline) = Return (Some ev) ->
               ev_total_cost ev = 13000000.
Proof.
  split.
  - change (total_cost 50000 200 3000000 = 50000 * 200 + 3000000).
    apply (proj1 total_cost_exact); lia.
  - intros ev H.
    apply (proj2 total_cost_exact evaluated offline
             (fst (app evaluated offline)) ev).
    rewrite <- H. reflexivity.
Defined.

(** C9: the net operating income is the rental income minus the operating
    expenses, as integers, and a run ends with this value; nothing clamps
    it: a run with inputs in the range of the widgets ends with a negative
    NOI. *)
Theorem noi_exact_may_be_negative :
  (forall rental_income operating_expenses,
      noi rental_income operating_expenses =
      rental_income - operating_expenses)
  /\ (forall w net tr ev,
        app w net = (tr, Return (Some ev)) ->
        ev_noi ev = rental_income w - operating_expenses w)
  /\ in_range loss_making
  /\ (forall net, exists tr ev,
         app loss_making net = (tr, Return (Some ev)) /\
         ev_noi ev = -800000).
Proof.
  split; [reflexivity |]. split; [| split].
  - intros w net tr ev H. apply app_evaluation in H.
    destruct H as (_ & Hn & _). exact Hn.
  - unfold in_range, loss_making; simpl. lia.
  - intros net. eexists _, _. split; reflexivity.
Qed.

Lemma noi_witness :
  ev_noi (Evaluation 13000000 (-800000) 7000000
            (VFloat (S754_finite false 7578172449902277 (-47))))
  = 400000 - 1200000.
Proof.
  exact (proj1 (proj2 noi_exact_may_be_negative) loss_making offline
           (fst (app loss_making offline))
           (Evaluation 13000000 (-800000) 7000000
              (VFloat (S754_finite false 7578172449902277 (-47))))
           eq_refl).
Defined.

(** With no button pressed nothing is fetched, shown or computed. *)
Lemma defaults_run net : app defaults net = ([], Return None).
Proof. reflexivity. Qed.

(** Two runs that both reach the end of the evaluation block and agree
    on the six number inputs end with the same total cost, NOI, profit and
    ROI and show the same metrics, whatever the other widgets, the buttons
    and the network were. *)
Lemma metrics_depend_on_numeric_inputs_only :
  forall w1 w2 net1 net2 tr1 tr2 ev1 ev2,
    numeric_inputs w1 = numeric_inputs w2 ->
    app w1 net1 = (tr1, Return (Some ev1)) ->
    app w2 net2 = (tr2, Return (Some ev2)) ->
    ev1 = ev2 /\ shown_metrics tr1 = shown_metrics tr2.
Proof.
  intros w1 w2 net1 net2 tr1 tr2 ev1 ev2 Hsame H1 H2.
  apply app_Return in H1. destruct H1 as (pre1 & u1 & blk1 & E1 & -> & Q1).
  apply app_Return in H2. destruct H2 as (pre2 & u2 & blk2 & E2 & -> & Q2).
  apply evaluate_property_Return in E1, E2.
  unfold numeric_inputs in Hsame. inversion Hsame as [[Hb Hc Hk Hr Ho Hs]].
  rewrite Hb, Hc, Hk, Hr, Ho, Hs in E1.
  destruct E1 as (r1 & p1 & q1 & s1 & R1 & P1 & N1 & S1 & -> & M1).
  destruct E2 as (r2 & p2 & q2 & s2 & R2 & P2 & N2 & S2 & -> & M2).
  rewrite R1 in R2. inversion R2; subst r2.
  rewrite P1 in P2. rewrite N1 in N2. rewrite S1 in S2.
  inversion P2; inversion N2; inversion S2; subst.
  split; [reflexivity |].
  rewrite !shown_metrics_app, Q1, Q2, M1, M2. reflexivity.
Qed.

Lemma metrics_witness :
  snd (app evaluated offline) = snd (app evaluated_otherwise two_rows)
  /\ shown_metrics (fst (app evaluated offline)) =
     shown_metrics (fst (app evaluated_otherwise two_rows)).
Proof.
  destruct (metrics_depend_on_numeric_inputs_only
              evaluated evaluated_otherwise offline two_rows
              (fst (app evaluated offline))
              (fst (app evaluated_otherwise two_rows))
              (Evaluation 13000000 800000 7000000
                 (VFloat (S754_finite false 7578172449902277 (-47))))
              (Evaluation 13000000 800000 7000000
                 (VFloat (S754_finite false 7578172449902277 (-47))))
              eq_refl eq_refl eq_refl) as [_ Hm].
  split; [reflexivity | exact Hm].
Defined.
End Metrics.

(** ** More facts on text *)

Module TextFacts.
Import Py PyFacts.

Lemma split_concat sep s : String.concat (String sep "") (split sep s) = s.
Proof.
  induction s as [| a r IH]; simpl; [reflexivity |].
  destruct (Ascii.eqb_spec a sep) as [-> | Hne].
  - pose proof (split_length sep r) as L.
    simpl. destruct (split sep r) as [| h t] eqn:E; [discriminate L |].
    rewrite IH. reflexivity.
  - destruct (split sep r) as [| h [| h' t]] eqn:E; simpl in *.
    + pose proof (split_length sep r) as L. rewrite E in L. discriminate L.
    + rewrite IH. reflexivity.
    + rewrite IH. reflexivity.
Qed.

Lemma split_piece_lacks c sep s : forall p,
  contains c s = false -> In p (split sep s) -> contains c p = false.
Proof.
  induction s as [| a r IH]; simpl; intros p Hc Hin.
  - destruct Hin as [<- | []]. reflexivity.
  - apply orb_false_iff in Hc. destruct Hc as [Ha Hr].
    destruct (Ascii.eqb a sep).
    + destruct Hin as [<- | Hin]; [reflexivity | exact (IH p Hr Hin)].
    + destruct (split sep r) as [| h t].
      * destruct Hin as [<- | []]. simpl. rewrite Ha. reflexivity.
      * destruct Hin as [<- | Hin].
        -- simpl. rewrite Ha. apply (IH h Hr). left. reflexivity.
        -- apply (IH p Hr). right. exact Hin.
Qed.

Lemma split_piece_no_sep sep s : forall p,
  In p (split sep s) -> contains sep p = false.
Proof.
  induction s as [| a r IH]; simpl; intros p Hin.
  - destruct Hin as [<- | []]. reflexivity.
  - destruct (Ascii.eqb a sep) eqn:Ha.
    + destruct Hin as [<- | Hin]; [reflexivity | exact (IH p Hin)].
    + destruct (split sep r) as [| h t].
      * destruct Hin as [<- | []]. simpl. rewrite Ha. reflexivity.
      * destruct Hin as [<- | Hin].
        -- simpl. rewrite Ha. apply (IH h). left. reflexivity.
        -- apply (IH p). right. exact Hin.
Qed.



Lemma rstrip_cons c r :
  rstrip (String c r) =
  match rstrip r with
  | EmptyString => if isspace c then EmptyString else String c EmptyString
  | r' => String c r'
  end.
Proof. reflexivity. Qed.

Lemma rstrip_idem s : rstrip (rstrip s) = rstrip s.
Proof.
  induction s as [| c r IH]; [reflexivity |].
  rewrite rstrip_cons. destruct (rstrip r) as [| c' r'] eqn:E.
  - destruct (isspace c) eqn:Hc; [reflexivity |].
    rewrite rstrip_cons. simpl. rewrite Hc. reflexivity.
  - rewrite rstrip_cons, IH. reflexivity.
Qed.

Lemma lstrip_head s :
  lstrip s = EmptyString \/
  exists c r, lstrip s = String c r /\ isspace c = false.
Proof.
  induction s as [| c r IH]; simpl; [left; reflexivity |].
  destruct (isspace c) eqn:Hc; [exact IH |].
  right. exists c, r. split; [reflexivity | exact Hc].
Qed.

Lemma rstrip_head c r :
  isspace c = false -> exists r', rstrip (String c r) = String c r'.
Proof.
  intros Hc. rewrite rstrip_cons. destruct (rstrip r) as [| c' r'].
  - rewrite Hc. eauto.
  - eauto.
Qed.

Lemma strip_idem s : strip (strip s) = strip s.
Proof.
  unfold strip. destruct (lstrip_head s) as [-> | (c & r & -> & Hc)].
  - reflexivity.
  - destruct (rstrip_head c r Hc) as [r' E].
    rewrite E. simpl lstrip. rewrite Hc, <- E. apply rstrip_idem.
Qed.

Lemma contains_lstrip c s :
  isspace c = false -> contains c (lstrip s) = contains c s.
Proof.
  intros Hc. induction s as [| a r IH]; simpl; [reflexivity |].
  destruct (isspace a) eqn:Ha; [| reflexivity].
  rewrite IH. destruct (Ascii.eqb_spec a c) as [-> | _]; [congruence |].
  reflexivity.
Qed.

Lemma contains_rstrip c s :
  isspace c = false -> contains c (rstrip s) = contains c s.
Proof.
  intros Hc. induction s as [| a r IH]; [reflexivity |].
  rewrite rstrip_cons. simpl contains at 2. rewrite <- IH.
  destruct (rstrip r) as [| c' r']; [| reflexivity].
  destruct (isspace a) eqn:Ha; [| reflexivity].
  simpl. destruct (Ascii.eqb_spec a c) as [-> | _]; [congruence |].
  reflexivity.
Qed.

Lemma contains_strip c s :
  isspace c = false -> contains c (strip s) = contains c s.
Proof.
  intros Hc. unfold strip.
  rewrite (contains_rstrip _ _ Hc). exact (contains_lstrip _ _ Hc).
Qed.

Lemma count_append c a b : count c (a ++ b) = (count c a + count c b)%nat.
Proof.
  induction a as [| x r IH]; simpl; [reflexivity |].
  destruct (Ascii.eqb x c); rewrite IH; reflexivity.
Qed.

(** A character of a decimal literal is a digit or an underscore. *)
Lemma literal_char c :
  Ascii.eqb c "_" = true \/ digit c <> None ->
  isspace c = false /\ Ascii.eqb c ":" = false.
Proof.
  destruct c as [[] [] [] [] [] [] [] []]; vm_compute; intuition congruence.
Qed.

Lemma int_digits_chars s : forall acc after_digit n,
  int_digits s acc after_digit = Some n ->
  contains ":" s = false /\ lstrip s = s /\ rstrip s = s.
Proof.
  induction s as [| c r IH]; intros acc b n H; [repeat split |].
  simpl in H.
  assert (Hc : Ascii.eqb c "_" = true \/ digit c <> None).
  { destruct (Ascii.eqb c "_"); [left; reflexivity |].
    right. destruct (digit c); [discriminate | discriminate H]. }
  apply literal_char in Hc. destruct Hc as [Hs Hk].
  assert (Hr : exists acc' b' , int_digits r acc' b' = Some n).
  { destruct (Ascii.eqb c "_").
    - destruct b; [eauto | discriminate H].
    - destruct (digit c); [eauto | discriminate H]. }
  destruct Hr as (acc' & b' & Hr).
  destruct (IH _ _ _ Hr) as (Hk' & _ & Hr').
  repeat split.
  - simpl. rewrite Hk. exact Hk'.
  - simpl. rewrite Hs. reflexivity.
  - rewrite rstrip_cons, Hr'. destruct r; [rewrite Hs |]; reflexivity.
Qed.

(** No colon stands in a text that [int] accepts. *)
Lemma int_literal_no_colon s n :
  int_literal s = Some n -> contains ":" s = false.
Proof.
  intros H. destruct s as [| c r]; [reflexivity |].
  assert (Hc : (Ascii.eqb c ":" = false /\
                exists m, int_digits r 0 false = Some m)
               \/ int_digits (String c r) 0 false = Some n).
  { destruct c as [[] [] [] [] [] [] [] []]; simpl in H;
      first [ right; exact H
            | left; split; [reflexivity |];
              destruct (int_digits r 0 false) as [m |];
              [exists m; reflexivity | discriminate H] ]. }
  destruct Hc as [[Hc [m Hm]] | Hd].
  - simpl. rewrite Hc. exact (proj1 (int_digits_chars _ _ _ _ Hm)).
  - exact (proj1 (int_digits_chars _ _ _ _ Hd)).
Qed.

Lemma int_with_colon s : contains ":" s = true -> int s = Raise ValueError.
Proof.
  intros H. unfold int.
  destruct (int_literal (strip s)) as [n |] eqn:E; [| reflexivity].
  apply int_literal_no_colon in E.
  rewrite contains_strip in E by reflexivity. congruence.
Qed.

Section DictKeys.
Context {V : Type}.

Lemma dict_set_keys k (v : V) d k' :
  In k' (map fst (dict_set k v d)) -> k' = k \/ In k' (map fst d).
Proof.
  induction d as [| [k0 v0] r IH]; simpl.
  - intros [<- | []]. left. reflexivity.
  - destruct (String.eqb_spec k0 k) as [-> | Hne]; simpl.
    + intros [<- | H]; auto.
    + intros [<- | H]; [auto |]. destruct (IH H); auto.
Qed.

Lemma dict_set_NoDup k (v : V) d :
  NoDup (map fst d) -> NoDup (map fst (dict_set k v d)).
Proof.
  induction d as [| [k0 v0] r IH]; simpl; intros H.
  - constructor; [intros [] | constructor].
  - inversion H as [| ? ? Hnot Hrest]; subst.
    destruct (String.eqb_spec k0 k) as [-> | Hne]; simpl.
    + constructor; assumption.
    + constructor; [| exact (IH Hrest)].
      intros Hin. apply dict_set_keys in Hin. destruct Hin; congruence.
Qed.
End DictKeys.

End TextFacts.

(** ** More on the unit mix loop *)

Module UnitsMore.
Import Py St Eff App EffFacts PyFacts UnitsFacts TextFacts.

Lemma item_raises net d item tr e :
  units_by_type_item item d net = (tr, Raise e) -> e = ValueError /\ tr = [].
Proof.
  intros H. pose proof (item_cases net d item) as Hc.
  destruct (count ":" item) as [| [| k]].
  - rewrite Hc in H. discriminate.
  - destruct Hc as (key & val & _ & [(n & _ & Hr) | (_ & Hr)]);
      rewrite Hr in H; discriminate.
  - rewrite Hc in H. inversion H. auto.
Qed.

Lemma for_each_item_raises net items : forall d tr e,
  for_each units_by_type_item items d net = (tr, Raise e) -> e = ValueError.
Proof.
  induction items as [| item items IH]; intros d tr e H; simpl in H.
  - discriminate.
  - unfold bind in H.
    destruct (units_by_type_item item d net) as [tr1 [d1 | e1]] eqn:E1.
    + destruct (for_each units_by_type_item items d1 net) as [tr2 r2] eqn:E2.
      inversion H; subst. exact (IH _ _ _ E2).
    + inversion H; subst. exact (proj1 (item_raises _ _ _ _ _ E1)).
Qed.

Lemma item_returns_warnings net d item tr d' :
  units_by_type_item item d net = (tr, Return d') -> tr = token_warnings item.
Proof.
  intros H. unfold token_warnings.
  pose proof (item_cases net d item) as Hc.
  pose proof (split_length ":" item) as L.
  destruct (count ":" item) as [| [| k]].
  - rewrite Hc in H. inversion H; subst.
    destruct (split ":" item) as [| a [| b t]]; simpl in L;
      [reflexivity | reflexivity | discriminate L].
  - destruct Hc as (key & val & Hs & [(n & Hn & Hr) | (Hn & Hr)]);
      rewrite Hr in H; inversion H; subst; rewrite Hs, Hn; reflexivity.
  - rewrite Hc in H. discriminate.
Qed.

Lemma colon_free_items net items : forall d,
  Forall (fun item => contains ":" item = false) items ->
  for_each units_by_type_item items d net = ([], Return d).
Proof.
  induction items as [| item items IH]; intros d H; [reflexivity |].
  inversion H as [| ? ? Hitem Hrest]; subst. simpl.
  rewrite (bind_Return net _ _ [] d (item_no_colon net d item Hitem)).
  rewrite (IH d Hrest). reflexivity.
Qed.

End UnitsMore.

Section UnitMixMore.
Import Py St Eff App EffFacts PyFacts UnitsFacts TextFacts UnitsMore.

(** X1: the text areas are split on commas and nothing else is done to them:
    joining the pieces with commas gives the text back, so no piece is
    trimmed or dropped, there is one piece more than there are commas, and
    no piece holds a comma. *)
Theorem split_keeps_the_text :
  forall text,
    String.concat "," (split "," text) = text
    /\ List.length (split "," text) = S (count "," text)
    /\ Forall (fun piece => contains "," piece = false) (split "," text).
Proof.
  intros text. split; [apply split_concat |]. split; [apply split_length |].
  apply Forall_forall. intros p Hin. exact (split_piece_no_sep _ _ _ Hin).
Qed.

(** X2: the loop over the tokens returns exactly when no token holds two
    colons or more; when it does not return, it raises [ValueError]. *)
Theorem units_by_type_dict_returns_iff :
  forall net items,
    (Forall (fun item => (count ":" item <= 1)%nat) items <->
     exists tr d, units_by_type_dict items net = (tr, Return d))
    /\ (forall tr e,
          units_by_type_dict items net = (tr, Raise e) -> e = ValueError).
Proof.
  intros net items. unfold units_by_type_dict. split; [split |].
  - apply for_each_item_returns.
  - intros (tr & d & H). exact (for_each_item_returned _ _ _ _ _ H).
  - intros tr e H. exact (for_each_item_raises _ _ _ _ _ H).
Qed.

(** X3: every entry of the mapping comes from a token: its label is the
    trimmed text before the colon of some token, its count the integer
    after it; the label carries no white space at either end. *)
Theorem unit_mix_entries_come_from_tokens :
  forall net items tr d label n,
    units_by_type_dict items net = (tr, Return d) ->
    dict_get label d = Some n ->
    (exists item key val,
        In item items /\ split ":" item = [key; val] /\
        strip key = label /\ int (strip val) = Return n)
    /\ strip label = label.
Proof.
  intros net items tr d label n Hrun Hget.
  assert (Hex : exists item key val,
             In item items /\ split ":" item = [key; val] /\
             strip key = label /\ int (strip val) = Return n).
  { revert label n Hget.
    refine (for_each_invariant units_by_type_item net
              (fun d => forall label n, dict_get label d = Some n ->
                 exists item key val,
                   In item items /\ split ":" item = [key; val] /\
                   strip key = label /\ int (strip val) = Return n)
              items _ [] tr d _ Hrun).
    - intros x s t s' Hin Hinv Hx label n Hget.
      pose proof (item_cases net s x) as Hc.
      destruct (count ":" x) as [| [| k]].
      + rewrite Hc in Hx. inversion Hx; subst. exact (Hinv _ _ Hget).
      + destruct Hc as (key & val & Hs & [(n' & Hn' & Hr) | (_ & Hr)]);
          rewrite Hr in Hx; inversion Hx; subst; [| exact (Hinv _ _ Hget)].
        destruct (String.eqb_spec label (strip key)) as [-> | Hne].
        * rewrite dict_get_set_same in Hget. inversion Hget; subst.
          exists x, key, val. auto.
        * rewrite dict_get_set_other in Hget by exact Hne.
          exact (Hinv _ _ Hget).
      + rewrite Hc in Hx. discriminate.
    - intros label n Hget. discriminate Hget. }
  split; [exact Hex |].
  destruct Hex as (item & key & val & _ & _ & <- & _). apply strip_idem.
Qed.

Lemma unit_mix_entries_witness :
  (exists item key val,
      In item ["1BR:20"; " 2BR : 15 "] /\ split ":" item = [key; val] /\
      strip key = "2BR" /\ int (strip val) = Return 15)
  /\ strip "2BR" = "2BR".
Proof.
  exact (unit_mix_entries_come_from_tokens Requests.offline
           ["1BR:20"; " 2BR : 15 "] [] [("1BR", 20); ("2BR", 15)] "2BR" 15
           eq_refl eq_refl).
Defined.

(** X4: when the loop returns, what it showed is one warning for each token
    whose count does not parse, in the order of the tokens, and nothing
    else. *)
Theorem unit_mix_warnings_in_token_order :
  forall net items tr d,
    units_by_type_dict items net = (tr, Return d) ->
    tr = flat_map token_warnings items.
Proof.
  intros net items. unfold units_by_type_dict. generalize (@nil (string * Z)).
  induction items as [| item items IH]; intros d0 tr d H; simpl in H.
  - inversion H. reflexivity.
  - apply bind_Return_inv in H. destruct H as (tr1 & d1 & tr2 & H1 & H2 & ->).
    simpl. rewrite (item_returns_warnings _ _ _ _ _ H1), (IH _ _ _ H2).
    reflexivity.
Qed.

Lemma unit_mix_warnings_witness :
  [St_warning (invalid_value "Studio" "abc");
   St_warning (invalid_value " Loft " " 2.5")]
  = flat_map token_warnings ["1BR:20"; "Studio:abc"; "none"; " Loft : 2.5"].
Proof.
  exact (unit_mix_warnings_in_token_order Requests.offline
           ["1BR:20"; "Studio:abc"; "none"; " Loft : 2.5"] _ [("1BR", 20)]
           eq_refl).
Defined.

(** X5: a text without any colon, the empty text among them, gives the empty
    mapping and shows nothing. *)
Theorem colon_free_text_gives_empty_mix :
  forall net text,
    contains ":" text = false -> parse_unit_mix text net = ([], Return []).
Proof.
  intros net text H. unfold parse_unit_mix, units_by_type_dict.
  apply colon_free_items. apply Forall_forall. intros p Hin.
  exact (split_piece_lacks _ _ _ _ H Hin).
Qed.

Lemma colon_free_text_witness :
  parse_unit_mix "" Requests.offline = ([], Return [])
  /\ parse_unit_mix "studio, loft 3,,2BR" Requests.offline = ([], Return []).
Proof.
  split; apply colon_free_text_gives_empty_mix; reflexivity.
Defined.

(** X6: no label stands twice in the mapping, so the summary names each label
    once. *)
Theorem unit_mix_labels_are_distinct :
  forall net items tr d,
    units_by_type_dict items net = (tr, Return d) -> NoDup (map fst d).
Proof.
  intros net items tr d Hrun.
  refine (for_each_invariant units_by_type_item net
            (fun d => NoDup (map fst d)) items _ [] tr d _ Hrun).
  - intros x s t s' _ Hinv Hx.
    pose proof (item_cases net s x) as Hc.
    destruct (count ":" x) as [| [| k]].
    + rewrite Hc in Hx. inversion Hx; subst. exact Hinv.
    + destruct Hc as (key & val & _ & [(n' & _ & Hr) | (_ & Hr)]);
        rewrite Hr in Hx; inversion Hx; subst; [| exact Hinv].
      apply dict_set_NoDup. exact Hinv.
    + rewrite Hc in Hx. discriminate.
  - constructor.
Qed.

Lemma unit_mix_labels_witness : NoDup (map fst [("1BR", 5); ("2BR", 15)]).
Proof.
  exact (unit_mix_labels_are_distinct Requests.offline
           ["1BR:20"; "2BR:15"; " 1BR :5"] [] [("1BR", 5); ("2BR", 15)]
           eq_refl).
Defined.



End UnitMixMore.

(** ** Traces of composed computations *)

Module TraceFacts.
Import Py St Eff EffFacts EmitFacts.

Lemma bind_Raise {A B} (m : M A) (f : A -> M B) net tr e :
  m net = (tr, Raise e) -> bind m f net = (tr, Raise e).
Proof. intros H. unfold bind. rewrite H. reflexivity. Qed.

Lemma emits_weaken {A} (P Q : event -> Prop) (m : M A) :
  (forall e, P e -> Q e) -> emits P m -> emits Q m.
Proof.
  intros H Hm net. specialize (Hm net).
  apply Forall_forall. intros e He. apply H.
  exact (proj1 (Forall_forall P _) Hm e He).
Qed.

Lemma filter_quiet {A} (p : event -> bool) (m : M A) net :
  emits (fun e => p e = false) m -> filter p (fst (m net)) = [].
Proof.
  intros H. specialize (H net). induction H as [| e l He _ IH]; simpl.
  - reflexivity.
  - rewrite He. exact IH.
Qed.

Lemma filter_bind_quiet {A B} (p : event -> bool) (m : M A) (f : A -> M B) net :
  (forall a, emits (fun e => p e = false) (f a)) ->
  filter p (fst (bind m f net)) = filter p (fst (m net)).
Proof.
  intros H. unfold bind. destruct (m net) as [tr [a | e]]; [| reflexivity].
  pose proof (filter_quiet p (f a) net (H a)) as Hq.
  destruct (f a net) as [tr' r]. simpl in *.
  rewrite filter_app, Hq. apply app_nil_r.
Qed.

End TraceFacts.

(** ** What each part of the page can show *)

Module ShowFacts.
Import Py Requests St Eff App EffFacts EmitFacts TraceFacts.
Local Open Scope eff_scope.

Ltac shows :=
  repeat first
    [ apply emits_ret | apply emits_raise | apply emits_lift
    | apply emits_emit; solve [auto | reflexivity]
    | apply emits_http_get; solve [auto | intros; reflexivity]
    | apply emits_raise_for_status | apply emits_json
    | apply emits_bind; [| intros]
    | apply emits_try_except; [| intros]
    | apply emits_for_each; intros
    | apply emits_if ].

Section Shows.
Variable P : event -> Prop.

Lemma census_emits state_fips county_fips api_key :
  (forall req, P (Http_get req)) -> (forall msg, P (St_error msg)) ->
  emits P (get_census_data state_fips county_fips api_key).
Proof. intros Hh He. unfold get_census_data. shows. Qed.

Lemma zillow_emits property_address zillow_api_key :
  (forall msg, P (St_warning msg)) ->
  emits P (get_zillow_rent_zestimate property_address zillow_api_key).
Proof. intros Hw. unfold get_zillow_rent_zestimate. shows. Qed.

Lemma units_emits text :
  (forall msg, P (St_warning msg)) -> emits P (parse_unit_mix text).
Proof.
  intros Hw. unfold parse_unit_mix, units_by_type_dict. apply emits_for_each.
  intros item d. unfold units_by_type_item.
  apply emits_if; [| apply emits_ret].
  apply emits_bind.
  - destruct (split ":" item) as [| a [| b [| c t]]]; simpl;
      first [apply emits_ret | apply emits_raise].
  - intros [key val]. shows.
Qed.

Lemma evaluate_emits w units :
  (forall msg, P (St_success msg)) -> (forall l v, P (St_metric l v)) ->
  (forall msg, P (St_write msg)) -> emits P (evaluate_property w units).
Proof.
  intros Hs Hm Hw. unfold evaluate_property. shows.
  match goal with x : (string * Z)%type |- _ => destruct x end. shows.
Qed.
End Shows.

(** The line under the rent button, pressed or not. *)
Lemma rent_branch (b : bool) property_address zillow_api_key net :
  (if b then
     rent <- get_zillow_rent_zestimate property_address zillow_api_key ;;
     emit (St_success [Lit "Zillow Rent Zestimate: $"; Interp (VInt rent)]) ;;
     ret rent
   else ret 2500) net =
  (if b then [St_warning [Lit zillow_notice]; rent_line 2500] else [],
   Return 2500).
Proof. destruct b; reflexivity. Qed.

(** The summary loop writes one line for each entry, in order. *)
Lemma summary_run (units : dict Z) net :
  for_each
    (fun (entry : string * Z) (_ : unit) =>
       let (unit, count) := entry in
       emit (St_write [Interp (VStr unit); Lit ": "; Interp (VInt count);
                       Lit " units"]))
    units tt net = (map unit_mix_line units, Return tt).
Proof.
  induction units as [| [unit count] units IH]; [reflexivity |].
  simpl for_each. unfold bind at 1. simpl. rewrite IH. reflexivity.
Qed.

Lemma getitem_raises v i e :
  getitem v i = Raise e -> e = IndexError \/ e = KeyError \/ e = TypeError.
Proof.
  destruct v as [| b | n | x | s | l | d]; simpl; intros H;
    try (inversion H; auto; fail).
  - destruct (norm_index _ i) as [k |]; [destruct (String.get k s) |];
      inversion H; auto.
  - destruct (norm_index _ i) as [k |]; [destruct (nth_error l k) |];
      inversion H; auto.
Qed.

Lemma getitem_list_1 l x :
  nth_error l 1 = Some x -> getitem (VList l) 1 = Return x.
Proof.
  intros H. assert (L : (1 < List.length l)%nat)
    by (apply nth_error_Some; congruence).
  unfold getitem, norm_index. cbn [Z.ltb Z.compare].
  replace ((0 <=? 1) && (1 <? Z.of_nat (List.length l))) with true
    by (symmetry; apply andb_true_iff; split;
        [reflexivity | apply Z.ltb_lt; lia]).
  change (Z.to_nat 1) with 1%nat. rewrite H. reflexivity.
Qed.

Lemma getitem_short_list l :
  (List.length l < 2)%nat -> getitem (VList l) 1 = Raise IndexError.
Proof.
  intros L. unfold getitem, norm_index. cbn [Z.ltb Z.compare].
  replace ((0 <=? 1) && (1 <? Z.of_nat (List.length l))) with false
    by (symmetry; apply andb_false_iff; right; apply Z.ltb_ge; lia).
  reflexivity.
Qed.

Lemma status_cases s : 400 <= s < 600 \/ ~ 400 <= s < 600.
Proof. lia. Qed.

End ShowFacts.

(** ** The income lookup, case by case *)

Section CensusMore.
Import Py Requests St Eff App EffFacts EmitFacts TraceFacts ShowFacts.

(** X8: a failure of the transport, a 4xx or 5xx status and a body that is
    not JSON all end the same way: the request, one error message naming
    the exception, and the value "N/A". *)
Theorem get_census_data_falls_back :
  forall state_fips county_fips api_key net,
    let req := census_request state_fips county_fips api_key in
    let fallback k :=
      ([Http_get req;
        St_error [Lit "Error fetching Census data: ";
                  InterpExn (RequestException k)]],
       Return (VStr "N/A")) in
    (forall k, net req = Failed k ->
       get_census_data state_fips county_fips api_key net = fallback k)
    /\ (forall r, net req = Replied r -> 400 <= status_code r < 600 ->
          get_census_data state_fips county_fips api_key net =
          fallback (HTTPError (status_code r)))
    /\ (forall r, net req = Replied r -> ~ 400 <= status_code r < 600 ->
          body r = None ->
          get_census_data state_fips county_fips api_key net =
          fallback JSONDecodeError).
Proof.
  intros state_fips county_fips api_key net req fallback. repeat split.
  - intros k H. exact (census_transport_failure _ _ _ _ _ H).
  - intros r H Hs. exact (census_error_status _ _ _ _ _ H Hs).
  - intros r H Hs Hb. exact (census_body_not_json _ _ _ _ _ H Hs Hb).
Qed.

Lemma get_census_data_falls_back_witness :
  get_census_data "06" "037" "key" offline =
  ([Http_get (census_request "06" "037" "key");
    St_error [Lit "Error fetching Census data: ";
              InterpExn (RequestException
                           (ConnectionError "Network is unreachable"))]],
   Return (VStr "N/A")).
Proof.
  exact (proj1 (get_census_data_falls_back "06" "037" "key" offline)
           (ConnectionError "Network is unreachable") eq_refl).
Defined.

(** X9: a reply whose status is not 4xx or 5xx and whose body is a table with
    a second row of two cells or more gives the second cell of that row,
    as it is, and shows no message. *)
Theorem get_census_data_returns_the_cell :
  forall state_fips county_fips api_key net r rows cells v,
    net (census_request state_fips county_fips api_key) = Replied r ->
    ~ 400 <= status_code r < 600 ->
    body r = Some (VList rows) ->
    nth_error rows 1 = Some (VList cells) ->
    nth_error cells 1 = Some v ->
    get_census_data state_fips county_fips api_key net =
    ([Http_get (census_request state_fips county_fips api_key)], Return v).
Proof.
  intros state_fips county_fips api_key net r rows cells v H Hs Hb Hrow Hv.
  rewrite (census_json_body _ _ _ _ _ _ H Hs Hb).
  rewrite (getitem_list_1 _ _ Hrow), (getitem_list_1 _ _ Hv). reflexivity.
Qed.

Lemma get_census_data_returns_the_cell_witness :
  get_census_data "06" "037" "key" two_rows =
  ([Http_get (census_request "06" "037" "key")], Return (VStr "76367")).
Proof.
  refine (get_census_data_returns_the_cell "06" "037" "key" two_rows
            _ _ _ (VStr "76367") eq_refl _ eq_refl eq_refl eq_refl).
  simpl. lia.
Defined.

(** X10: when the body of the reply went through the decoder, an
    exception that leaves the function is the [IndexError], [KeyError] or
    [TypeError] of [data[1][1]]; no error message was shown then. *)
Theorem get_census_data_raises_only_from_indexing :
  forall state_fips county_fips api_key net r data tr e,
    net (census_request state_fips county_fips api_key) = Replied r ->
    body r = Some data ->
    get_census_data state_fips county_fips api_key net = (tr, Raise e) ->
    (e = IndexError \/ e = KeyError \/ e = TypeError)
    /\ tr = [Http_get (census_request state_fips county_fips api_key)].
Proof.
  intros state_fips county_fips api_key net r data tr e Hnet Hb H.
  destruct (status_cases (status_code r)) as [Hs | Hs].
  - rewrite (census_error_status _ _ _ _ _ Hnet Hs) in H. discriminate.
  - rewrite (census_json_body _ _ _ _ _ _ Hnet Hs Hb) in H.
    inversion H as [[Htr He]]. split; [| reflexivity].
    destruct (getitem data 1) as [row | e1] eqn:E1.
    + exact (getitem_raises _ _ _ He).
    + inversion He; subst. exact (getitem_raises _ _ _ E1).
Qed.

Lemma get_census_data_raises_witness :
  (IndexError = IndexError \/ IndexError = KeyError \/ IndexError = TypeError)
  /\ [Http_get (census_request "06" "037" "key")] =
     [Http_get (census_request "06" "037" "key")].
Proof.
  exact (get_census_data_raises_only_from_indexing "06" "037" "key"
           header_only _ _ _ IndexError eq_refl eq_refl eq_refl).
Defined.

(** X11: a JSON body of the wrong shape is not caught: an object raises
    [KeyError], a null, a boolean or a number raises [TypeError], and a
    list with fewer than two rows raises [IndexError]. *)
Theorem get_census_data_on_malformed_json :
  forall state_fips county_fips api_key net r data,
    net (census_request state_fips county_fips api_key) = Replied r ->
    ~ 400 <= status_code r < 600 ->
    body r = Some data ->
    let raised e :=
      get_census_data state_fips county_fips api_key net =
      ([Http_get (census_request state_fips county_fips api_key)], Raise e) in
    match data with
    | VDict _ => raised KeyError
    | VNone | VBool _ | VInt _ | VFloat _ => raised TypeError
    | VList rows => (List.length rows < 2)%nat -> raised IndexError
    | VStr s => (String.length s < 2)%nat -> raised IndexError
    end.
Proof.
  intros state_fips county_fips api_key net r data H Hs Hb raised.
  unfold raised. rewrite (census_json_body _ _ _ _ _ _ H Hs Hb).
  destruct data as [| b | n | x | s | l | d]; try reflexivity.
  - intros L. destruct s as [| c [| c' s]]; [reflexivity | reflexivity |].
    simpl in L. lia.
  - intros L. rewrite (getitem_short_list _ L). reflexivity.
Qed.

Lemma get_census_data_on_malformed_json_witness :
  get_census_data "06" "037" "key"
    (fun _ => Replied (Response 200 (Some (VDict [("error", VStr "bad key")]))))
  = ([Http_get (census_request "06" "037" "key")], Raise KeyError).
Proof.
  refine (get_census_data_on_malformed_json "06" "037" "key"
            (fun _ => Replied (Response 200
                                 (Some (VDict [("error", VStr "bad key")]))))
            _ _ eq_refl _ eq_refl).
  simpl. lia.
Defined.

(** X12: whatever comes back, the function sends one request and no more: to
    the fixed address, with the four parameters and a time-out of 10. *)
Theorem get_census_data_sends_one_request :
  forall state_fips county_fips api_key net,
    requests_sent (fst (get_census_data state_fips county_fips api_key net)) =
    [Http_get
       (Request "https://api.census.gov/data/2021/acs/acs5"
          [("get", "NAME,B19013_001E"); ("for", "county:" ++ county_fips);
           ("in", "state:" ++ state_fips); ("key", api_key)]
          10)].
Proof.
  intros state_fips county_fips api_key net.
  change (Request _ _ 10) with (census_request state_fips county_fips api_key).
  destruct (net (census_request state_fips county_fips api_key))
    as [k | r] eqn:Hnet.
  - rewrite (census_transport_failure _ _ _ _ _ Hnet). reflexivity.
  - destruct (status_cases (status_code r)) as [Hs | Hs].
    + rewrite (census_error_status _ _ _ _ _ Hnet Hs). reflexivity.
    + destruct (body r) as [data |] eqn:Hb.
      * rewrite (census_json_body _ _ _ _ _ _ Hnet Hs Hb). reflexivity.
      * rewrite (census_body_not_json _ _ _ _ _ Hnet Hs Hb). reflexivity.
Qed.

(** X13: each part of the page shows its own kind of message and no other:
    the income lookup its request and an error, the rent stub and the
    unit mix loop warnings, the evaluation block its success line, the
    metrics and the summary lines. *)
Theorem page_parts_show_their_own_kinds :
  (forall state_fips county_fips api_key,
      emits (fun e => is_http e || is_error e = true)
        (get_census_data state_fips county_fips api_key))
  /\ (forall property_address zillow_api_key,
        emits (fun e => is_warning e = true)
          (get_zillow_rent_zestimate property_address zillow_api_key))
  /\ (forall text, emits (fun e => is_warning e = true) (parse_unit_mix text))
  /\ (forall w units,
        emits (fun e => is_success e || is_metric e || is_write e = true)
          (evaluate_property w units)).
Proof.
  repeat split; intros.
  - apply census_emits; reflexivity.
  - apply zillow_emits; reflexivity.
  - apply units_emits; reflexivity.
  - apply evaluate_emits; reflexivity.
Qed.

End CensusMore.

(** ** The page as a whole *)

Section Page.
Import Py Requests St Eff App EffFacts EmitFacts PyFacts UnitsFacts.
Import TextFacts UnitsMore TraceFacts ShowFacts.
Local Open Scope eff_scope.

Ltac silent :=
  repeat first
    [ apply census_emits; solve [reflexivity | intros; reflexivity]
    | apply zillow_emits; intros; reflexivity
    | apply units_emits; intros; reflexivity
    | apply evaluate_emits; intros; reflexivity
    | apply emits_ret | apply emits_raise | apply emits_lift
    | apply emits_emit; reflexivity
    | apply emits_bind; [| intros]
    | apply emits_if ].

(** X14: a run sends a request only when the income button was pressed, and
    then exactly one: neither the rent button, nor the unit mix, nor the
    evaluation reaches the network. *)
Theorem page_sends_at_most_one_request :
  forall w net,
    requests_sent (fst (app w net)) =
    if census_button w
    then [Http_get (census_request (state_fips w) (county_fips w)
                      (census_api_key w))]
    else [].
Proof.
  intros w net. unfold app, requests_sent.
  rewrite filter_bind_quiet by (intros; silent).
  destruct (census_button w); [| reflexivity].
  rewrite filter_bind_quiet by (intros; silent).
  destruct (net (census_request (state_fips w) (county_fips w)
                   (census_api_key w))) as [k | r] eqn:Hnet.
  - rewrite (census_transport_failure _ _ _ _ _ Hnet). reflexivity.
  - destruct (status_cases (status_code r)) as [Hs | Hs].
    + rewrite (census_error_status _ _ _ _ _ Hnet Hs). reflexivity.
    + destruct (body r) as [data |] eqn:Hb.
      * rewrite (census_json_body _ _ _ _ _ _ Hnet Hs Hb). reflexivity.
      * rewrite (census_body_not_json _ _ _ _ _ Hnet Hs Hb). reflexivity.
Qed.

(** X15: when the lookup fails the page shows the error and then, all the
    same, the success line, which reads "Median Household Income: $N/A". *)
Theorem failed_lookup_still_shows_the_income_line :
  forall w net k,
    census_button w = true ->
    net (census_request (state_fips w) (county_fips w) (census_api_key w))
    = Failed k ->
    (exists rest,
        fst (app w net) =
        Http_get (census_request (state_fips w) (county_fips w)
                    (census_api_key w))
        :: St_error [Lit "Error fetching Census data: ";
                     InterpExn (RequestException k)]
        :: income_line (VStr "N/A") :: rest)
    /\ render [Lit "Median Household Income: $"; Interp (VStr "N/A")] =
       Some "Median Household Income: $N/A".
Proof.
  intros w net k Hb Hnet. split; [| reflexivity].
  unfold app. rewrite Hb.
  pose proof (census_transport_failure _ _ _ _ _ Hnet) as Hc.
  match goal with
  | |- context [bind (bind ?m ?f) ?g net] =>
      assert (Hin : bind m f net =
                    ([Http_get (census_request (state_fips w) (county_fips w)
                                  (census_api_key w));
                      St_error [Lit "Error fetching Census data: ";
                                InterpExn (RequestException k)];
                      income_line (VStr "N/A")], Return (VStr "N/A")))
        by (rewrite (bind_Return net m f _ _ Hc); reflexivity);
      rewrite (bind_Return net (bind m f) g _ _ Hin)
  end.
  simpl fst. eexists. reflexivity.
Qed.

Lemma failed_lookup_witness :
  (exists rest,
      fst (app evaluated_otherwise offline) =
      Http_get (census_request "06" "037" "key")
      :: St_error [Lit "Error fetching Census data: ";
                   InterpExn (RequestException
                                (ConnectionError "Network is unreachable"))]
      :: income_line (VStr "N/A") :: rest)
  /\ render [Lit "Median Household Income: $"; Interp (VStr "N/A")] =
     Some "Median Household Income: $N/A".
Proof.
  exact (failed_lookup_still_shows_the_income_line evaluated_otherwise offline
           (ConnectionError "Network is unreachable") eq_refl eq_refl).
Defined.

(** X16: a table without a second row stops the whole run at the lookup: the
    exception leaves the page, and neither the unit mix nor the
    evaluation is reached. *)
Theorem short_table_stops_the_page :
  forall w net r rows,
    census_button w = true ->
    net (census_request (state_fips w) (county_fips w) (census_api_key w))
    = Replied r ->
    ~ 400 <= status_code r < 600 ->
    body r = Some (VList rows) ->
    (List.length rows < 2)%nat ->
    app w net =
    ([Http_get (census_request (state_fips w) (county_fips w)
                  (census_api_key w))],
     Raise IndexError).
Proof.
  intros w net r rows Hb Hnet Hs Hbody L.
  pose proof (census_json_body _ _ _ _ _ _ Hnet Hs Hbody) as Hc.
  rewrite (getitem_short_list _ L) in Hc.
  unfold app. rewrite Hb.
  apply bind_Raise. apply bind_Raise. exact Hc.
Qed.

Lemma short_table_witness :
  app evaluated_otherwise header_only =
  ([Http_get (census_request "06" "037" "key")], Raise IndexError).
Proof.
  refine (short_table_stops_the_page evaluated_otherwise header_only _ _
            eq_refl eq_refl _ eq_refl _).
  - simpl. lia.
  - simpl. lia.
Defined.

(** X17: without the button nothing is evaluated: a run shows no metric and
    no summary line, and it ends without a result or with an exception. *)
Theorem nothing_is_evaluated_without_the_button :
  forall w net,
    evaluate_button w = false ->
    shown_metrics (fst (app w net)) = []
    /\ filter is_write (fst (app w net)) = []
    /\ (snd (app w net) = Return None \/ exists e, snd (app w net) = Raise e).
Proof.
  intros w net Hb. repeat split.
  - unfold shown_metrics. apply filter_quiet.
    unfold app. rewrite Hb. silent.
  - apply filter_quiet. unfold app. rewrite Hb. silent.
  - destruct (app w net) as [tr [[ev |] | e]] eqn:H; simpl; eauto.
    exfalso. unfold app in H. rewrite Hb in H.
    apply bind_Return_inv in H. destruct H as (? & ? & ? & _ & H & _).
    apply bind_Return_inv in H. destruct H as (? & ? & ? & _ & H & _).
    apply bind_Return_inv in H. destruct H as (? & ? & ? & _ & H & _).
    discriminate H.
Qed.

Lemma nothing_is_evaluated_witness :
  shown_metrics (fst (app defaults two_rows)) = []
  /\ filter is_write (fst (app defaults two_rows)) = []
  /\ (snd (app defaults two_rows) = Return None \/
      exists e, snd (app defaults two_rows) = Raise e).
Proof.
  exact (nothing_is_evaluated_without_the_button defaults two_rows eq_refl).
Defined.

(** X18: one token with two colons in the unit mix text costs the whole page:
    the run ends with [ValueError], and although the button was pressed
    no metric and no summary line is shown. *)
Theorem second_colon_stops_the_page :
  forall w net,
    census_button w = false ->
    Exists (fun item => (2 <= count ":" item)%nat)
      (split "," (units_by_type_text w)) ->
    snd (app w net) = Raise ValueError
    /\ shown_metrics (fst (app w net)) = []
    /\ filter is_write (fst (app w net)) = [].
Proof.
  intros w net Hb Hex.
  assert (Hp : exists tr, parse_unit_mix (units_by_type_text w) net =
                          (tr, Raise ValueError)).
  { destruct (parse_unit_mix (units_by_type_text w) net) as [tr [d | e]] eqn:H;
      unfold parse_unit_mix, units_by_type_dict in H.
    - apply for_each_item_returned in H.
      apply Exists_exists in Hex. destruct Hex as (item & Hin & Hitem).
      pose proof (proj1 (Forall_forall _ _) H item Hin) as Hle.
      simpl in Hle. lia.
    - rewrite (for_each_item_raises _ _ _ _ _ H). eauto. }
  destruct Hp as [trp Hp].
  assert (Hq : Forall (fun e => is_metric e = false /\ is_write e = false) trp).
  { pose proof (units_emits
                  (fun e => is_metric e = false /\ is_write e = false)
                  (units_by_type_text w) (fun _ => conj eq_refl eq_refl) net)
      as Hq. rewrite Hp in Hq. exact Hq. }
  assert (Hrun : app w net =
                 ((if zillow_button w
                   then [St_warning [Lit zillow_notice]; rent_line 2500]
                   else []) ++ trp, Raise ValueError)%list).
  { unfold app. rewrite Hb, bind_ret_l.
    rewrite (bind_Return net _ _ _ _
               (rent_branch (zillow_button w) (property_address w)
                  (zillow_api_key w) net)).
    rewrite (bind_Raise _ _ net _ _ Hp). reflexivity. }
  rewrite Hrun. simpl fst. simpl snd. unfold shown_metrics.
  rewrite !filter_app.
  assert (Hm : filter is_metric trp = [] /\ filter is_write trp = []).
  { clear -Hq. induction Hq as [| e l [He1 He2] _ [IH1 IH2]]; simpl.
    - split; reflexivity.
    - rewrite He1, He2. split; assumption. }
  destruct Hm as [-> ->]. destruct (zillow_button w); repeat split.
Qed.

Lemma second_colon_witness :
  snd (app (Widgets "" "" "" "" "" "" "" "" "" "" 200 "" "" "" false "" true
              350000 92 "" 50000 "2BR:15,1BR:20:5" 3 3000000 1200000 400000
              20000000 true) offline) = Raise ValueError
  /\ shown_metrics
       (fst (app (Widgets "" "" "" "" "" "" "" "" "" "" 200 "" "" "" false ""
                    true 350000 92 "" 50000 "2BR:15,1BR:20:5" 3 3000000
                    1200000 400000 20000000 true) offline)) = []
  /\ filter is_write
       (fst (app (Widgets "" "" "" "" "" "" "" "" "" "" 200 "" "" "" false ""
                    true 350000 92 "" 50000 "2BR:15,1BR:20:5" 3 3000000
                    1200000 400000 20000000 true) offline)) = [].
Proof.
  apply second_colon_stops_the_page; [reflexivity |].
  apply Exists_cons_tl. apply Exists_cons_hd. simpl. lia.
Defined.

(** X19: when the evaluation block returns it has shown, in this order, the
    success line, the three metrics, and one summary line for each entry
    of the mapping, in the order of insertion. *)
Theorem evaluation_shows_metrics_then_summary :
  forall w units net tr ev,
    evaluate_property w units net = (tr, Return ev) ->
    exists p1 p2 p3,
      tr = St_success [Lit "Evaluation Complete"]
           :: St_metric "Total Development Cost" [Lit "$"; p1]
           :: St_metric "Net Operating Income (NOI)" [Lit "$"; p2]
           :: St_metric "For-Sale ROI" [p3; Lit "%"]
           :: map unit_mix_line units.
Proof.
  intros w units net tr ev H. unfold evaluate_property in H.
  repeat (apply bind_Return_inv in H;
          let tr1 := fresh "tr" in
          let a := fresh "a" in
          let tr2 := fresh "tr" in
          let H1 := fresh "Hfirst" in
          destruct H as (tr1 & a & tr2 & H1 & H & ->)).
  unfold lift in *. unfold emit, ret in *.
  repeat match goal with
         | E : for_each _ _ _ _ = _ |- _ => rewrite summary_run in E
         | E : (_, _) = (_, _) |- _ => inversion E; clear E; subst
         end.
  do 3 eexists. simpl. rewrite app_nil_r. reflexivity.
Qed.

Lemma evaluation_shows_witness :
  exists p1 p2 p3,
    fst (evaluate_property evaluated [("1BR", 20); ("2BR", 15)] offline) =
    St_success [Lit "Evaluation Complete"]
    :: St_metric "Total Development Cost" [Lit "$"; p1]
    :: St_metric "Net Operating Income (NOI)" [Lit "$"; p2]
    :: St_metric "For-Sale ROI" [p3; Lit "%"]
    :: map unit_mix_line [("1BR", 20); ("2BR", 15)].
Proof.
  exact (evaluation_shows_metrics_then_summary evaluated
           [("1BR", 20); ("2BR", 15)] offline _
           (Evaluation 13000000 800000 7000000
              (VFloat (S754_finite false 7578172449902277 (-47))))
           eq_refl).
Defined.

(** X20: with inputs in the range of the widgets, the division is left out,
    and the ROI is the integer 0, exactly when the conversion costs are 0
    and the area or the cost per square foot is 0. *)
Theorem roi_guard_fires_iff :
  forall w net tr ev,
    in_range w ->
    app w net = (tr, Return (Some ev)) ->
    (ev_roi ev = VInt 0 <->
     conversion_costs w = 0 /\ (bldg_sqft w = 0 \/ cost_per_sqft w = 0)).
Proof.
  intros w net tr ev Hr H.
  destruct Hr as (Hc & _ & _ & Hb & _ & Hk & _).
  apply app_Return in H. destruct H as (pre & u & blk & E & _ & _).
  apply evaluate_property_Return in E.
  destruct E as (r & _ & _ & _ & R & _ & _ & _ & -> & _). simpl ev_roi.
  unfold roi, total_cost, truthy in R.
  destruct (Z.eqb_spec (bldg_sqft w * cost_per_sqft w + conversion_costs w) 0)
    as [E0 | E0]; cbn [negb] in R.
  - inversion R; subst. split; [intros _ | reflexivity]. nia.
  - split.
    + intros ->.
      destruct (int_truediv _ _) as [q | e]; cbn [result_bind] in R;
        [| discriminate R].
      destruct (float_mul_int q 100) as [x | e]; cbn [result_bind] in R;
        discriminate R.
    + intros [Hk0 Hz]. exfalso. apply E0. destruct Hz as [-> | ->]; lia.
Qed.

Lemma roi_guard_witness :
  VInt 0 = VInt 0 <-> 0 = 0 /\ (0 = 0 \/ 200 = 0).
Proof.
  refine (roi_guard_fires_iff
            (Widgets "" "" "" "" "" "" "" "" "" "" 200 "" "" "" false "" false
               350000 92 "" 0 "" 3 0 1200000 400000 20000000 true)
            offline _ (Evaluation 0 800000 20000000 (VInt 0)) _ eq_refl).
  unfold in_range; simpl. lia.
Defined.

(** X21: with inputs in the range of the widgets the total cost is not
    negative and not below the conversion costs, the NOI lies between
    minus the expenses and the rental income, and the profit is at most the
    sell-out total. *)
Theorem evaluation_bounds :
  forall w net tr ev,
    in_range w ->
    app w net = (tr, Return (Some ev)) ->
    0 <= conversion_costs w <= ev_total_cost ev
    /\ - operating_expenses w <= ev_noi ev <= rental_income w
    /\ - ev_total_cost ev <= ev_profit ev <= condo_sellout w.
Proof.
  intros w net tr ev Hr H.
  destruct Hr as (Hc & _ & _ & Hb & _ & Hk & Hi & Ho & Hs).
  apply app_evaluation in H. destruct H as (Ht & Hn & Hp & _).
  rewrite Hp, Hn, Ht. unfold total_cost, noi, profit. nia.
Qed.

Lemma evaluation_bounds_witness :
  0 <= 3000000 <= 13000000
  /\ - 1200000 <= -800000 <= 400000
  /\ - 13000000 <= 7000000 <= 20000000.
Proof.
  refine (evaluation_bounds loss_making offline _
            (Evaluation 13000000 (-800000) 7000000
               (VFloat (S754_finite false 7578172449902277 (-47))))
            _ eq_refl).
  unfold in_range; simpl. lia.
Defined.

(** C5: a token whose count segment, the text after its first colon,
    holds a colon of its own fails the integer parse like any other text
    that is no number; but the unpacking in front of the [try] raises on
    it first: no warning is shown, the tokens that follow are not looked
    at, and the entries gathered so far are lost with the run. *)
Theorem invalid_count_behind_second_colon_raises :
  forall net pre label rest post tr d,
    contains ":" label = false ->
    contains ":" rest = true ->
    units_by_type_dict pre net = (tr, Return d) ->
    int (strip rest) = Raise ValueError
    /\ units_by_type_dict (pre ++ (label ++ ":" ++ rest) :: post) net =
       (tr, Raise ValueError).
Proof.
  intros net pre label rest post tr d Hl Hr Hpre. split.
  - apply int_with_colon. rewrite contains_strip by reflexivity. exact Hr.
  - unfold units_by_type_dict in *.
    rewrite for_each_app, (bind_Return net _ _ tr d Hpre). simpl for_each.
    assert (Hitem : units_by_type_item (label ++ ":" ++ rest) d net =
                    ([], Raise ValueError)).
    { apply item_many_colons.
      change (label ++ ":" ++ rest) with (label ++ String ":" rest).
      rewrite count_append. simpl count.
      rewrite contains_count in Hr.
      destruct (count ":" rest); [discriminate Hr | lia]. }
    rewrite (bind_Raise _ _ net _ _ Hitem). simpl. rewrite app_nil_r.
    reflexivity.
Qed.

Lemma invalid_count_behind_second_colon_witness :
  int (strip "a:b") = Raise ValueError
  /\ units_by_type_dict ["1BR:20"; "Studio:a:b"; "2BR:15"] Requests.offline =
     ([], Raise ValueError).
Proof.
  exact (invalid_count_behind_second_colon_raises Requests.offline
           ["1BR:20"] "Studio" "a:b" ["2BR:15"] [] [("1BR", 20)]
           eq_refl eq_refl eq_refl).
Defined.

(** C10: the metrics do not depend on the six number inputs alone.  With
    the same six numbers and the button pressed, the unit mix decides
    whether any metric appears: with "1BR:20,2BR:15" the run ends with its
    four values and shows three metrics, with "1BR:20:5,2BR:15" it ends
    with [ValueError] before the block.  With the same widgets, the reply
    to the income request decides it as well. *)
Theorem metrics_depend_on_unit_mix_and_reply :
  (numeric_inputs evaluated = numeric_inputs evaluated_second_colon
   /\ forall net,
        snd (app evaluated net) =
          Return (Some (Evaluation 13000000 800000 7000000
                          (VFloat (S754_finite false 7578172449902277 (-47)))))
        /\ List.length (shown_metrics (fst (app evaluated net))) = 3%nat
        /\ app evaluated_second_colon net = ([], Raise ValueError))
  /\ (snd (app evaluated_otherwise two_rows) =
        Return (Some (Evaluation 13000000 800000 7000000
                        (VFloat (S754_finite false 7578172449902277 (-47)))))
      /\ List.length (shown_metrics (fst (app evaluated_otherwise two_rows)))
         = 3%nat
      /\ app evaluated_otherwise header_only =
         ([Http_get (census_request "06" "037" "key")], Raise IndexError)).
Proof.
  split; [split; [reflexivity |]; intros net |]; repeat split; reflexivity.
Qed.

End Page.
